(** * Job application form: validation and submission gate (script.js)

    A shallow embedding of the form script.  JavaScript strings are lists
    of UTF-16 code units, the page is a record of the DOM properties the
    script reads and writes, and every function of the script that mutates
    the page is a computation in a small state monad over that record. *)

From Stdlib Require Import List NArith Bool String Ascii Arith Lia.
Import ListNotations.

Local Open Scope N_scope.

(** ** JavaScript strings and the host functions the script calls *)

Module JS.

(** A string value: its sequence of UTF-16 code units. *)
Definition jsstring := list N.

(** An ASCII literal of the script as a string value. *)
Definition lit (s : string) : jsstring :=
  map N_of_ascii (list_ascii_of_string s).

Fixpoint streq (a b : jsstring) : bool :=
  match a, b with
  | [], [] => true
  | x :: a', y :: b' => (x =? y) && streq a' b'
  | _, _ => false
  end.

(** [!v] for a string [v]: only the empty string is falsy. *)
Definition falsy (v : jsstring) : bool :=
  match v with [] => true | _ :: _ => false end.

(** [arr.includes(x)] on an array of strings. *)
Definition includes (arr : list jsstring) (x : jsstring) : bool :=
  existsb (fun y => streq y x) arr.

(** WhiteSpace and LineTerminator code points: what [trim] strips and what
    the class [\s] of a regular expression matches. *)
Definition isWhiteSpace (c : N) : bool :=
  ((9 <=? c) && (c <=? 13)) || (c =? 32) || (c =? 160) || (c =? 5760)
  || ((8192 <=? c) && (c <=? 8202)) || (c =? 8232) || (c =? 8233)
  || (c =? 8239) || (c =? 8287) || (c =? 12288) || (c =? 65279).

Fixpoint trimStart (s : jsstring) : jsstring :=
  match s with
  | c :: s' => if isWhiteSpace c then trimStart s' else s
  | [] => []
  end.

Definition trimEnd (s : jsstring) : jsstring := rev (trimStart (rev s)).

Definition trim (s : jsstring) : jsstring := trimEnd (trimStart s).

(** [s.split(sep)] for a one-unit separator: the parts between separators,
    never an empty array. *)
Fixpoint split (sep : N) (s : jsstring) : list jsstring :=
  match s with
  | [] => [[]]
  | c :: s' =>
      if c =? sep then [] :: split sep s'
      else match split sep s' with
           | part :: parts => (c :: part) :: parts
           | [] => [[c]]
           end
  end.

(** [parts.pop()] read for its value: the last element. *)
Definition pop (parts : list jsstring) : jsstring := last parts [].

(** The ASCII range, and [toLowerCase] on one code unit of it: a capital
    goes to its small letter, every other unit stays. *)
Definition isAscii (c : N) : bool := c <? 128.

Definition lowerAscii (c : N) : N :=
  if (65 <=? c) && (c <=? 90) then c + 32 else c.

(** Number to string for a non-negative integer. *)
Fixpoint digits (d : Decimal.uint) : jsstring :=
  match d with
  | Decimal.Nil => []
  | Decimal.D0 d => 48 :: digits d
  | Decimal.D1 d => 49 :: digits d
  | Decimal.D2 d => 50 :: digits d
  | Decimal.D3 d => 51 :: digits d
  | Decimal.D4 d => 52 :: digits d
  | Decimal.D5 d => 53 :: digits d
  | Decimal.D6 d => 54 :: digits d
  | Decimal.D7 d => 55 :: digits d
  | Decimal.D8 d => 56 :: digits d
  | Decimal.D9 d => 57 :: digits d
  end.

Definition numToString (n : N) : jsstring := digits (N.to_uint n).

(** [(num / den).toFixed(1)] for a power of two [den]: the quotient is
    exact in double precision (sizes are below 2^53), and [toFixed] takes
    the nearest tenth, the larger one on a tie. *)
Definition toFixed1 (num den : N) : jsstring :=
  let n := (20 * num + den) / (2 * den) in
  numToString (n / 10) ++ lit "." ++ numToString (n mod 10).

(** Regular expressions over code units, matched by derivatives. *)
Inductive regex : Type :=
| Void : regex
| Eps : regex
| Class : (N -> bool) -> regex
| Seq : regex -> regex -> regex
| Alt : regex -> regex -> regex
| Star : regex -> regex.

(** [r+] *)
Definition Plus (r : regex) : regex := Seq r (Star r).

Fixpoint nullable (r : regex) : bool :=
  match r with
  | Void => false
  | Eps => true
  | Class _ => false
  | Seq r1 r2 => nullable r1 && nullable r2
  | Alt r1 r2 => nullable r1 || nullable r2
  | Star _ => true
  end.

Fixpoint deriv (c : N) (r : regex) : regex :=
  match r with
  | Void => Void
  | Eps => Void
  | Class p => if p c then Eps else Void
  | Seq r1 r2 =>
      if nullable r1 then Alt (Seq (deriv c r1) r2) (deriv c r2)
      else Seq (deriv c r1) r2
  | Alt r1 r2 => Alt (deriv c r1) (deriv c r2)
  | Star r1 => Seq (deriv c r1) (Star r1)
  end.

(** [/^r$/.test(s)]: the whole of [s] matches [r]. *)
Fixpoint test (r : regex) (s : jsstring) : bool :=
  match s with
  | [] => nullable r
  | c :: s' => test (deriv c r) s'
  end.

(** The words a regular expression denotes. *)
Inductive lang : regex -> jsstring -> Prop :=
| lang_eps : lang Eps []
| lang_class p c : p c = true -> lang (Class p) [c]
| lang_seq r1 r2 s1 s2 : lang r1 s1 -> lang r2 s2 -> lang (Seq r1 r2) (s1 ++ s2)
| lang_alt_l r1 r2 s : lang r1 s -> lang (Alt r1 r2) s
| lang_alt_r r1 r2 s : lang r2 s -> lang (Alt r1 r2) s
| lang_star_nil r : lang (Star r) []
| lang_star_app r s1 s2 : lang r s1 -> lang (Star r) s2 -> lang (Star r) (s1 ++ s2).

End JS.

Import JS.

(** ** The page: the DOM state the script reads and writes *)

(** An element showing text that the script hides and reveals through the
    [hidden] class. *)
Record node : Type := Node { textContent : jsstring; hidden : bool }.

(** A [File] of the resume input: [f.name], [f.size], [f.type]. *)
Record file : Type := File { name : jsstring; size : N; type : jsstring }.

(** The submit button: [submitBtn.disabled], [submitBtn.textContent]. *)
Record button : Type := Button { disabled : bool; label : jsstring }.

(** The status line: [formStatus.textContent], [formStatus.style.color]. *)
Record status : Type := Status { statusText : jsstring; color : jsstring }.

(** The [value] of the four text controls. *)
Record texts : Type := Texts {
  fullName : jsstring;
  email : jsstring;
  cover : jsstring;
  portfolio : jsstring
}.

(** The five error slots. *)
Inductive errId : Type := ErrName | ErrEmail | ErrCover | ErrResume | ErrPortfolio.

Record errs : Type := Errs {
  errName : node;
  errEmail : node;
  errCover : node;
  errResume : node;
  errPortfolio : node
}.

(** The callbacks the script hands to [setTimeout]; there is only one. *)
Inductive callback : Type := SubmitDone.

Record page : Type := Page {
  values : texts;            (* current values of the text controls *)
  defaults : texts;          (* their default values, restored by [form.reset()] *)
  files : list file;         (* [resume.files] *)
  errors : errs;
  filePreview : node;
  submitBtn : button;
  formStatus : status;
  timers : list (N * callback);   (* pending timeouts, oldest first *)
  isDirty : bool
}.

Definition getErr (i : errId) (e : errs) : node :=
  match i with
  | ErrName => errName e
  | ErrEmail => errEmail e
  | ErrCover => errCover e
  | ErrResume => errResume e
  | ErrPortfolio => errPortfolio e
  end.

Definition setErr (i : errId) (n : node) (e : errs) : errs :=
  match i with
  | ErrName => Errs n (errEmail e) (errCover e) (errResume e) (errPortfolio e)
  | ErrEmail => Errs (errName e) n (errCover e) (errResume e) (errPortfolio e)
  | ErrCover => Errs (errName e) (errEmail e) n (errResume e) (errPortfolio e)
  | ErrResume => Errs (errName e) (errEmail e) (errCover e) n (errPortfolio e)
  | ErrPortfolio => Errs (errName e) (errEmail e) (errCover e) (errResume e) n
  end.

Definition withValues (v : texts) (p : page) : page :=
  Page v (defaults p) (files p) (errors p) (filePreview p) (submitBtn p)
       (formStatus p) (timers p) (isDirty p).
Definition withFiles (fs : list file) (p : page) : page :=
  Page (values p) (defaults p) fs (errors p) (filePreview p) (submitBtn p)
       (formStatus p) (timers p) (isDirty p).
Definition withErrors (e : errs) (p : page) : page :=
  Page (values p) (defaults p) (files p) e (filePreview p) (submitBtn p)
       (formStatus p) (timers p) (isDirty p).
Definition withFilePreview (n : node) (p : page) : page :=
  Page (values p) (defaults p) (files p) (errors p) n (submitBtn p)
       (formStatus p) (timers p) (isDirty p).
Definition withSubmitBtn (b : button) (p : page) : page :=
  Page (values p) (defaults p) (files p) (errors p) (filePreview p) b
       (formStatus p) (timers p) (isDirty p).
Definition withFormStatus (s : status) (p : page) : page :=
  Page (values p) (defaults p) (files p) (errors p) (filePreview p) (submitBtn p)
       s (timers p) (isDirty p).
Definition withTimers (t : list (N * callback)) (p : page) : page :=
  Page (values p) (defaults p) (files p) (errors p) (filePreview p) (submitBtn p)
       (formStatus p) t (isDirty p).
Definition withIsDirty (b : bool) (p : page) : page :=
  Page (values p) (defaults p) (files p) (errors p) (filePreview p) (submitBtn p)
       (formStatus p) (timers p) b.

(** ** Computations on the page *)

Definition M (A : Type) : Type := page -> A * page.

Definition ret {A : Type} (a : A) : M A := fun p => (a, p).
Definition bind {A B : Type} (c : M A) (k : A -> M B) : M B :=
  fun p => let (a, p') := c p in k a p'.
Definition gets {A : Type} (f : page -> A) : M A := fun p => (f p, p).
Definition modify (f : page -> page) : M unit := fun p => (tt, f p).

Declare Scope script_scope.
Delimit Scope script_scope with script.
Notation "x <- c ;; k" := (bind c (fun x => k))
  (at level 61, c at next level, right associativity) : script_scope.
Notation "c ;; k" := (bind c (fun _ => k))
  (at level 61, right associativity) : script_scope.
Local Open Scope script_scope.

(** The result and the final page of a computation. *)
Definition result {A : Type} (c : M A) (p : page) : A := fst (c p).
Definition after {A : Type} (c : M A) (p : page) : page := snd (c p).

(** ** script.js *)

Section Script.

(** The host's lower-casing of a string that holds a code unit outside
    ASCII: the full Unicode case conversion, which goes by the Unicode
    tables of the host. *)
Variable hostLower : jsstring -> jsstring.

(** [s.toLowerCase()].  On a string of ASCII code units the Unicode
    conversion is the ASCII one; any other string is lower-cased by the
    host. *)
Definition toLowerCase (s : jsstring) : jsstring :=
  if forallb isAscii s then map lowerAscii s else hostLower s.

(** Config *)
Definition MAX_FILE_BYTES : N := 2 * 1024 * 1024.
Definition ALLOWED_MIME : list jsstring :=
  [ lit "application/pdf";
    lit "application/msword";
    lit "application/vnd.openxmlformats-officedocument.wordprocessingml.document" ].
Definition ALLOWED_EXT : list jsstring := [ lit "pdf"; lit "doc"; lit "docx" ].

(** helpers *)
Definition showError (i : errId) (msg : jsstring) : M unit :=
  modify (fun p => withErrors (setErr i (Node msg false) (errors p)) p).

Definition clearError (i : errId) : M unit :=
  modify (fun p => withErrors (setErr i (Node [] true) (errors p)) p).

Definition prettyBytes (bytes : N) : jsstring :=
  if bytes <? 1024 then numToString bytes ++ lit " B"
  else if bytes <? 1024 * 1024 then toFixed1 bytes 1024 ++ lit " KB"
  else toFixed1 bytes (1024 * 1024) ++ lit " MB".

Definition getExt (filename : jsstring) : jsstring :=
  let parts := split 46 filename in
  if (1 <? List.length parts)%nat then toLowerCase (pop parts) else [].

(** The messages, one per error kind. *)
Definition msgNameRequired : jsstring := lit "Full name is required.".
Definition msgNameTooShort : jsstring := lit "Please enter your full name.".
Definition msgEmailRequired : jsstring := lit "Email is required.".
Definition msgEmailInvalid : jsstring := lit "Please enter a valid email address.".
Definition msgCoverTooShort : jsstring :=
  lit "If provided, cover letter should be at least 20 characters.".
Definition msgPortfolioScheme : jsstring := lit "Portfolio URL must use http or https.".
Definition msgPortfolioInvalid : jsstring :=
  lit "Please enter a valid URL for your portfolio.".
Definition msgResumeRequired : jsstring :=
  lit "Resume is required. Attach a PDF or Word document.".
(* 8212 is the em dash of the template literal *)
Definition msgResumeTooLarge : jsstring :=
  lit "File is too large " ++ [8212] ++ lit " max is "
      ++ prettyBytes MAX_FILE_BYTES ++ lit ".".
Definition msgResumeInvalidType : jsstring :=
  lit "Invalid file type. Allowed: .pdf, .doc, .docx".

Definition validateName : M bool :=
  v <- gets (fun p => trim (fullName (values p))) ;;
  if falsy v then showError ErrName msgNameRequired ;; ret false
  else if (List.length v <? 2)%nat then showError ErrName msgNameTooShort ;; ret false
  else clearError ErrName ;; ret true.

(** [[^\s@]] *)
Definition notSpaceAt (c : N) : bool := negb (isWhiteSpace c || (c =? 64)).

(** [/^[^\s@]+@[^\s@]+\.[^\s@]+$/] *)
Definition re : regex :=
  Seq (Plus (Class notSpaceAt))
      (Seq (Class (N.eqb 64))
           (Seq (Plus (Class notSpaceAt))
                (Seq (Class (N.eqb 46))
                     (Plus (Class notSpaceAt))))).

Definition validateEmail : M bool :=
  v <- gets (fun p => trim (email (values p))) ;;
  if falsy v then showError ErrEmail msgEmailRequired ;; ret false
  else if negb (test re v) then showError ErrEmail msgEmailInvalid ;; ret false
  else clearError ErrEmail ;; ret true.

Definition validateCover : M bool :=
  v <- gets (fun p => trim (cover (values p))) ;;
  if falsy v then clearError ErrCover ;; ret true
  else if (List.length v <? 20)%nat then showError ErrCover msgCoverTooShort ;; ret false
  else clearError ErrCover ;; ret true.

(** The host's URL parser: [newURL v] is [None] when [new URL(v)] throws,
    and [Some s] when it returns a URL whose [protocol] property is [s]
    (the scheme followed by a colon). *)
Variable newURL : jsstring -> option jsstring.

Definition validatePortfolio : M bool :=
  v <- gets (fun p => trim (portfolio (values p))) ;;
  if falsy v then clearError ErrPortfolio ;; ret true
  else
    match newURL v with
    | Some protocol =>
        if negb (includes [lit "http:"; lit "https:"] protocol)
        then showError ErrPortfolio msgPortfolioScheme ;; ret false
        else clearError ErrPortfolio ;; ret true
    | None => showError ErrPortfolio msgPortfolioInvalid ;; ret false
    end.

(** [filePreview.classList.add('hidden')] *)
Definition hidePreview : M unit :=
  modify (fun p => withFilePreview (Node (textContent (filePreview p)) true) p).

(** [filePreview.classList.remove('hidden')] *)
Definition unhidePreview : M unit :=
  modify (fun p => withFilePreview (Node (textContent (filePreview p)) false) p).

(** [filePreview.textContent = t] *)
Definition setPreviewText (t : jsstring) : M unit :=
  modify (fun p => withFilePreview (Node t (hidden (filePreview p))) p).

Definition validateResume : M bool :=
  clearError ErrResume ;;
  fs <- gets files ;;
  match fs with
  | [] =>
      showError ErrResume msgResumeRequired ;;
      hidePreview ;;
      ret false
  | f :: _ =>
      if MAX_FILE_BYTES <? size f then
        showError ErrResume msgResumeTooLarge ;;
        hidePreview ;;
        ret false
      else
        let mime := type f in
        let ext := getExt (name f) in
        let allowed := false in
        let allowed := if includes ALLOWED_MIME mime then true else allowed in
        let allowed := if includes ALLOWED_EXT ext then true else allowed in
        if negb allowed then
          showError ErrResume msgResumeInvalidType ;;
          hidePreview ;;
          ret false
        else
          unhidePreview ;;
          setPreviewText (lit "Selected: " ++ name f ++ lit " ("
                              ++ prettyBytes (size f) ++ lit ")") ;;
          clearError ErrResume ;;
          ret true
  end.

(** The click listener of the clear button. *)
Definition onClearFile : M unit :=
  modify (withFiles []) ;;
  hidePreview ;;
  clearError ErrResume.

(** [form.reset()]: every text control back to its default value, the file
    input emptied.  No [input] event is fired. *)
Definition formReset : M unit :=
  modify (fun p => withFiles [] (withValues (defaults p) p)).

(** [setTimeout(cb, ms)] *)
Definition setTimeout (cb : callback) (ms : N) : M unit :=
  modify (fun p => withTimers (timers p ++ [(ms, cb)]) p).

Definition setSubmitDisabled (b : bool) : M unit :=
  modify (fun p => withSubmitBtn (Button b (label (submitBtn p))) p).
Definition setSubmitText (t : jsstring) : M unit :=
  modify (fun p => withSubmitBtn (Button (disabled (submitBtn p)) t) p).
Definition setStatusText (t : jsstring) : M unit :=
  modify (fun p => withFormStatus (Status t (color (formStatus p))) p).
Definition setStatusColor (c : jsstring) : M unit :=
  modify (fun p => withFormStatus (Status (statusText (formStatus p)) c) p).

(* 9989 is the check mark that ends the success message *)
Definition msgSubmitted : jsstring :=
  lit "Application submitted successfully " ++ [9989].
Definition msgFixErrors : jsstring := lit "Please fix the highlighted errors.".
Definition labelSubmit : jsstring := lit "Submit application".
Definition labelChecking : jsstring := lit "Checking...".

(** The arrow function passed to [setTimeout] by the submit listener. *)
Definition submitDone : M unit :=
  setSubmitDisabled false ;;
  setSubmitText labelSubmit ;;
  setStatusText msgSubmitted ;;
  setStatusColor (lit "var(--success)") ;;
  formReset ;;
  hidePreview.

Definition runCallback (cb : callback) : M unit :=
  match cb with SubmitDone => submitDone end.

(** The submit listener of the form.  Listeners return whether they called
    [preventDefault] on their event. *)
Definition onSubmit : M bool :=
  (* e.preventDefault() *)
  setStatusText [] ;;
  setSubmitDisabled true ;;
  setSubmitText labelChecking ;;
  okName <- validateName ;;
  okEmail <- validateEmail ;;
  okCover <- validateCover ;;
  okPortfolio <- validatePortfolio ;;
  okResume <- validateResume ;;
  let allOk := okName && okEmail && okCover && okPortfolio && okResume in
  if negb allOk then
    setSubmitDisabled false ;;
    setSubmitText labelSubmit ;;
    setStatusText msgFixErrors ;;
    setStatusColor (lit "var(--danger)") ;;
    ret true
  else
    setTimeout SubmitDone 800 ;;
    ret true.

(** The [input] listener of the form, reached by every [input] event that
    bubbles up from a control. *)
Definition onFormInput : M unit := modify (withIsDirty true).

(** The [beforeunload] listener of the window. *)
Definition onBeforeUnload : M bool :=
  dirty <- gets isDirty ;;
  if dirty then (* ev.preventDefault() *) ret true else ret false.

(** The script's top level: the listeners are those of [dispatch] below,
    and the one variable it declares is [isDirty]. *)
Definition main (p : page) : page := withIsDirty false p.

(** What the host delivers to the page. *)
Inductive event : Type :=
| InputFullName (v : jsstring)     (* the user edits a text control *)
| InputEmail (v : jsstring)
| InputCover (v : jsstring)
| InputPortfolio (v : jsstring)
| SelectResume (fs : list file)    (* the user picks files: [input], then [change] *)
| ClickClearFile                   (* a click on the clear button, a plain button *)
| SubmitForm
| TimerFires                       (* the oldest pending timeout is due *)
| BeforeUnload.

Definition setFullName (v : jsstring) (p : page) : page :=
  withValues (Texts v (email (values p)) (cover (values p)) (portfolio (values p))) p.
Definition setEmail (v : jsstring) (p : page) : page :=
  withValues (Texts (fullName (values p)) v (cover (values p)) (portfolio (values p))) p.
Definition setCover (v : jsstring) (p : page) : page :=
  withValues (Texts (fullName (values p)) (email (values p)) v (portfolio (values p))) p.
Definition setPortfolio (v : jsstring) (p : page) : page :=
  withValues (Texts (fullName (values p)) (email (values p)) (cover (values p)) v) p.

(** One event: the listeners registered for it run in order, the one on
    the control before the one on the form.  The result tells whether the
    event's default action was prevented. *)
Definition dispatch (e : event) : M bool :=
  match e with
  | InputFullName v => modify (setFullName v) ;; validateName ;; onFormInput ;; ret false
  | InputEmail v => modify (setEmail v) ;; validateEmail ;; onFormInput ;; ret false
  | InputCover v => modify (setCover v) ;; validateCover ;; onFormInput ;; ret false
  | InputPortfolio v =>
      modify (setPortfolio v) ;; validatePortfolio ;; onFormInput ;; ret false
  | SelectResume fs =>
      modify (withFiles fs) ;; onFormInput ;; validateResume ;; ret false
  | ClickClearFile => onClearFile ;; ret false
  | SubmitForm => onSubmit
  | TimerFires =>
      ts <- gets timers ;;
      match ts with
      | [] => ret false
      | (_, cb) :: rest => modify (withTimers rest) ;; runCallback cb ;; ret false
      end
  | BeforeUnload => onBeforeUnload
  end.

(** Events that are, or begin with, an [input] event inside the form. *)
Definition isInputEvent (e : event) : bool :=
  match e with
  | InputFullName _ | InputEmail _ | InputCover _ | InputPortfolio _
  | SelectResume _ => true
  | _ => false
  end.

(** The page after a sequence of events. *)
Fixpoint run (es : list event) (p : page) : page :=
  match es with
  | [] => p
  | e :: es' => run es' (after (dispatch e) p)
  end.

(** The conjunction the submit listener computes, on the page it is given. *)
Definition allOk (p : page) : bool :=
  result validateName p && result validateEmail p && result validateCover p
  && result validatePortfolio p && result validateResume p.

(** The shape the pattern of [validateEmail] is said to accept:
    [a@b.c] with [a], [b] and [c] non-empty and free of white space and
    of [@]. *)
Definition emailShape (v : jsstring) : Prop :=
  exists a b c,
    v = a ++ 64 :: b ++ 46 :: c
    /\ a <> [] /\ b <> [] /\ c <> []
    /\ Forall (fun x => notSpaceAt x = true) a
    /\ Forall (fun x => notSpaceAt x = true) b
    /\ Forall (fun x => notSpaceAt x = true) c.

(** [e] is [x] up to ASCII capitals: unit by unit, the same unit or the
    capital of it. *)
Definition foldsTo (e x : jsstring) : Prop :=
  Forall2 (fun c d => c = d \/ (65 <= c <= 90 /\ d = c + 32)) e x.

(** No white space at either end of a value. *)
Definition cleanEnds (s : jsstring) : Prop :=
  isWhiteSpace (hd 0 s) = false /\ isWhiteSpace (last s 0) = false.

(** The page after the five validators have run one after the other. *)
Definition validated (p : page) : page :=
  after validateResume
    (after validatePortfolio
       (after validateCover (after validateEmail (after validateName p)))).

(** Events that cannot be delivered while a submission is pending: the
    disabled button keeps the form from being submitted again, and the
    pending timeout is not yet due. *)
Definition whileWaiting (e : event) : bool :=
  match e with
  | SubmitForm | TimerFires => false
  | _ => true
  end.

(** The page as the submit listener leaves it before the validators run. *)
Definition starting (p : page) : page :=
  withSubmitBtn (Button true labelChecking)
    (withFormStatus (Status [] (color (formStatus p))) p).

(** ** Sample data for running the script *)

Definition isAlpha (c : N) : bool :=
  ((65 <=? c) && (c <=? 90)) || ((97 <=? c) && (c <=? 122)).

Definition isSchemeUnit (c : N) : bool :=
  isAlpha c || ((48 <=? c) && (c <=? 57)) || (c =? 43) || (c =? 45) || (c =? 46).

Fixpoint schemeState (buffer s : jsstring) : option jsstring :=
  match s with
  | [] => None
  | c :: s' =>
      if c =? 58 then Some (buffer ++ [58])
      else if isSchemeUnit c then schemeState (buffer ++ [lowerAscii c]) s'
      else None
  end.

(** A stand-in for the host's URL parser, used only to run the script on
    the sample pages: it reads the scheme as the scheme states of the URL
    standard do (a letter, then letters, digits, [+], [-] and [.] up to
    the colon, lower-cased) and accepts whatever follows the colon, where
    a host's parser may still reject a malformed host or port. *)
Definition schemeURL (v : jsstring) : option jsstring :=
  match v with
  | c :: s' => if isAlpha c then schemeState [lowerAscii c] s' else None
  | [] => None
  end.

(** A stand-in for the host's lower-casing, used only to run the script on
    the sample pages: their names are ASCII, so it is never reached. *)
Definition plainLower (s : jsstring) : jsstring := s.

(** A freshly loaded page with nothing filled in. *)
Definition blankPage : page :=
  Page (Texts [] [] [] []) (Texts [] [] [] []) []
       (Errs (Node [] true) (Node [] true) (Node [] true) (Node [] true)
             (Node [] true))
       (Node [] true) (Button false labelSubmit) (Status [] []) [] false.

(** The same page with every control filled in acceptably. *)
Definition filledPage : page :=
  withFiles [File (lit "resume.PDF") 2097152 []]
    (withValues (Texts (lit "Ada Lovelace") (lit "ada@example.com") []
                       (lit "https://example.com"))
                blankPage).

(** ** What a validator reads and what it writes *)

(** A page stripped to what the validators read: the values of the
    controls, the selected files and the preview line. *)
Definition probe (p : page) : page :=
  withFilePreview (filePreview p)
    (withFiles (files p) (withValues (values p) blankPage)).

(** What a validator decides: its result, the error slot [i] and the
    preview line it leaves. *)
Definition verdict (i : errId) (c : M bool) (q : page) : bool * node * node :=
  (result c q, getErr i (errors (after c q)), filePreview (after c q)).

(** A computation is local to slot [i] when its result depends only on
    what validators read, and it writes only slot [i] and the preview. *)
Definition localTo (i : errId) (c : M bool) : Prop :=
  forall p,
    c p = (fst (fst (verdict i c (probe p))),
           withFilePreview (snd (verdict i c (probe p)))
             (withErrors (setErr i (snd (fst (verdict i c (probe p)))) (errors p)) p)).

(** The validator that owns each error slot. *)
Definition validator (i : errId) : M bool :=
  match i with
  | ErrName => validateName
  | ErrEmail => validateEmail
  | ErrCover => validateCover
  | ErrPortfolio => validatePortfolio
  | ErrResume => validateResume
  end.

(** The error slot that the listeners of an event write, if any. *)
Definition ownSlot (e : event) : option errId :=
  match e with
  | InputFullName _ => Some ErrName
  | InputEmail _ => Some ErrEmail
  | InputCover _ => Some ErrCover
  | InputPortfolio _ => Some ErrPortfolio
  | SelectResume _ => Some ErrResume
  | ClickClearFile => Some ErrResume
  | SubmitForm | TimerFires | BeforeUnload => None
  end.

(** ** Facts about the string functions *)

Lemma streq_eq (a b : jsstring) : streq a b = true <-> a = b.
Proof.
  revert b; induction a as [|x a IH]; intros [|y b]; simpl; split;
    try congruence; try reflexivity.
  - intros H. apply andb_true_iff in H as [Hx Hab].
    apply N.eqb_eq in Hx. apply IH in Hab. congruence.
  - intros H. injection H as -> ->. rewrite N.eqb_refl. simpl. now apply IH.
Qed.

Lemma includes_In (arr : list jsstring) (x : jsstring) :
  includes arr x = true <-> In x arr.
Proof.
  unfold includes. rewrite existsb_exists. split.
  - intros [y [Hy E]]. apply streq_eq in E. now subst.
  - intros H. exists x. split; [assumption | now apply streq_eq].
Qed.

Lemma falsy_nil (v : jsstring) : falsy v = true <-> v = [].
Proof. destruct v; simpl; split; congruence. Qed.

Lemma falsy_length (v : jsstring) : falsy v = false <-> (1 <= List.length v)%nat.
Proof. destruct v; simpl; split; intros; try congruence; lia. Qed.

(** A string with no white space at either end is its own trimmed value. *)
Lemma trimStart_id (s : jsstring) :
  Forall (fun c => isWhiteSpace c = false) s -> trimStart s = s.
Proof.
  intros H. destruct H as [|c s Hc _]; simpl; [reflexivity|]. now rewrite Hc.
Qed.

Lemma trim_id (s : jsstring) :
  Forall (fun c => isWhiteSpace c = false) s -> trim s = s.
Proof.
  intros H. unfold trim, trimEnd. rewrite (trimStart_id s H).
  rewrite trimStart_id; [apply rev_involutive|].
  apply Forall_forall. intros c Hc. apply In_rev in Hc.
  revert c Hc. now apply Forall_forall.
Qed.

(** The string functions on a few inputs. *)
Example trim_inner_space : trim (lit "  a b  ") = lit "a b".
Proof. reflexivity. Qed.

Example split_dots : split 46 (lit "a.b.") = [lit "a"; lit "b"; []].
Proof. reflexivity. Qed.

Example getExt_upper : getExt (lit "archive.tar.GZ") = lit "gz".
Proof. reflexivity. Qed.

Example getExt_none : getExt (lit "README") = [].
Proof. reflexivity. Qed.

Example prettyBytes_B : prettyBytes 512 = lit "512 B".
Proof. reflexivity. Qed.

Example prettyBytes_KB : prettyBytes 1280 = lit "1.3 KB".
Proof. reflexivity. Qed.

Example prettyBytes_MB : prettyBytes 1572864 = lit "1.5 MB".
Proof. reflexivity. Qed.

Example re_accepts : test re (lit "a.b@c.d.e") = true.
Proof. reflexivity. Qed.

Example re_rejects_two_ats : test re (lit "a@b@c.d") = false.
Proof. reflexivity. Qed.

(** ** The matcher decides the language of the expression *)

Lemma nullable_lang (r : regex) : nullable r = true <-> lang r [].
Proof.
  split.
  - induction r; simpl; intros H; try discriminate.
    + constructor.
    + apply andb_true_iff in H as [H1 H2].
      change (@nil N) with (@nil N ++ []). constructor; auto.
    + apply orb_true_iff in H as [H|H];
        [apply lang_alt_l | apply lang_alt_r]; auto.
    + constructor.
  - intros H. remember [] as w eqn:E. induction H; simpl; try reflexivity;
      try discriminate.
    + apply app_eq_nil in E as [-> ->]. now rewrite IHlang1, IHlang2.
    + now rewrite IHlang.
    + rewrite IHlang by assumption. apply orb_true_r.
Qed.

Lemma deriv_sound (c : N) (r : regex) (s : jsstring) :
  lang (deriv c r) s -> lang r (c :: s).
Proof.
  revert s; induction r as [| |p|r1 IH1 r2 IH2|r1 IH1 r2 IH2|r1 IH1];
    simpl; intros s H.
  - inversion H.
  - inversion H.
  - destruct (p c) eqn:Hp; inversion H; subst. now constructor.
  - destruct (nullable r1) eqn:Hn.
    + inversion H as [| | | ? ? ? H' | ? ? ? H' | |]; subst.
      * inversion H' as [| | ? ? s1 s2 Ha Hb | | | |]; subst.
        change (c :: s1 ++ s2) with ((c :: s1) ++ s2). constructor; auto.
      * change (c :: s) with ([] ++ c :: s). constructor; auto.
        now apply nullable_lang.
    + inversion H as [| | ? ? s1 s2 Ha Hb | | | |]; subst.
      change (c :: s1 ++ s2) with ((c :: s1) ++ s2). constructor; auto.
  - inversion H; subst; [apply lang_alt_l | apply lang_alt_r]; auto.
  - inversion H as [| | ? ? s1 s2 Ha Hb | | | |]; subst.
    change (c :: s1 ++ s2) with ((c :: s1) ++ s2). constructor; auto.
Qed.

Lemma deriv_complete (c : N) (r : regex) (s : jsstring) :
  lang r (c :: s) -> lang (deriv c r) s.
Proof.
  intros H. remember (c :: s) as w eqn:E. revert s E.
  induction H as [|p d Hp|r1 r2 s1 s2 H1 IH1 H2 IH2|r1 r2 w H IH|r1 r2 w H IH|
                  |r1 s1 s2 H1 IH1 H2 IH2]; intros s E; simpl; try discriminate.
  - injection E as -> <-. rewrite Hp. constructor.
  - destruct s1 as [|x s1]; simpl in E.
    + apply nullable_lang in H1. rewrite H1. apply lang_alt_r. auto.
    + injection E as -> <-.
      destruct (nullable r1); [apply lang_alt_l|]; constructor; auto.
  - apply lang_alt_l; auto.
  - apply lang_alt_r; auto.
  - destruct s1 as [|x s1]; simpl in E.
    + auto.
    + injection E as -> <-. constructor; auto.
Qed.

Lemma test_lang (r : regex) (s : jsstring) : test r s = true <-> lang r s.
Proof.
  revert r; induction s as [|c s IH]; intros r; simpl.
  - apply nullable_lang.
  - rewrite IH. split; [apply deriv_sound | apply deriv_complete].
Qed.

Lemma lang_star_class (p : N -> bool) (s : jsstring) :
  lang (Star (Class p)) s <-> Forall (fun c => p c = true) s.
Proof.
  split.
  - intros H. remember (Star (Class p)) as r eqn:E.
    induction H; try discriminate; injection E as ->.
    + constructor.
    + inversion H; subst. simpl. constructor; auto.
  - induction 1 as [|c s Hc _ IH].
    + constructor.
    + change (c :: s) with ([c] ++ s). constructor; [now constructor | exact IH].
Qed.

Lemma lang_plus_class (p : N -> bool) (s : jsstring) :
  lang (Plus (Class p)) s <-> s <> [] /\ Forall (fun c => p c = true) s.
Proof.
  unfold Plus. split.
  - intros H. inversion H as [| | ? ? s1 s2 Ha Hb | | | |]; subst.
    inversion Ha; subst. apply lang_star_class in Hb. simpl.
    split; [discriminate | constructor; auto].
  - intros [Hne H]. destruct H as [|c s Hc Hs]; [congruence|].
    change (c :: s) with ([c] ++ s). constructor; [now constructor|].
    now apply lang_star_class.
Qed.

Lemma lang_unit (x : N) (s : jsstring) : lang (Class (N.eqb x)) s <-> s = [x].
Proof.
  split.
  - intros H. inversion H; subst. f_equal. symmetry. now apply N.eqb_eq.
  - intros ->. constructor. apply N.eqb_refl.
Qed.

Lemma lang_seq_iff (r1 r2 : regex) (s : jsstring) :
  lang (Seq r1 r2) s <-> exists s1 s2, s = s1 ++ s2 /\ lang r1 s1 /\ lang r2 s2.
Proof.
  split.
  - intros H. inversion H; subst. eauto.
  - intros (s1 & s2 & -> & H1 & H2). now constructor.
Qed.

(** The pattern of [validateEmail] accepts exactly the shape [a@b.c]. *)
Lemma re_shape (v : jsstring) : test re v = true <-> emailShape v.
Proof.
  rewrite test_lang. unfold re, emailShape. split.
  - intros H.
    apply lang_seq_iff in H as (a & t1 & -> & Ha & H).
    apply lang_seq_iff in H as (at' & t2 & -> & Hat & H).
    apply lang_seq_iff in H as (b & t3 & -> & Hb & H).
    apply lang_seq_iff in H as (dot & c & -> & Hdot & Hc).
    apply lang_unit in Hat, Hdot. subst.
    apply lang_plus_class in Ha as [Ha1 Ha2], Hb as [Hb1 Hb2], Hc as [Hc1 Hc2].
    exists a, b, c. simpl. repeat split; assumption.
  - intros (a & b & c & -> & Ha & Hb & Hc & Fa & Fb & Fc).
    constructor; [now apply lang_plus_class|].
    change (64 :: b ++ 46 :: c) with ([64] ++ b ++ [46] ++ c).
    constructor; [now apply lang_unit|].
    constructor; [now apply lang_plus_class|].
    constructor; [now apply lang_unit | now apply lang_plus_class].
Qed.

Lemma notSpaceAt_spec (c : N) :
  notSpaceAt c = true <-> isWhiteSpace c = false /\ c <> 64.
Proof.
  unfold notSpaceAt. rewrite negb_true_iff, orb_false_iff, N.eqb_neq. tauto.
Qed.

Lemma Forall_notSpaceAt_no_at (s : jsstring) :
  Forall (fun x => notSpaceAt x = true) s -> ~ In 64 s.
Proof.
  intros H Hin. rewrite Forall_forall in H. apply H in Hin.
  apply notSpaceAt_spec in Hin. now destruct Hin.
Qed.

Lemma Forall_notSpaceAt_clean (s : jsstring) :
  Forall (fun x => notSpaceAt x = true) s ->
  Forall (fun c => isWhiteSpace c = false) s.
Proof.
  apply Forall_impl. intros c H. now apply notSpaceAt_spec in H.
Qed.

(** A string of the shape holds no white space at all. *)
Lemma emailShape_clean (v : jsstring) :
  emailShape v -> Forall (fun c => isWhiteSpace c = false) v.
Proof.
  intros (a & b & c & -> & _ & _ & _ & Fa & Fb & Fc).
  apply Forall_app. split; [now apply Forall_notSpaceAt_clean|].
  constructor; [reflexivity|].
  apply Forall_app. split; [now apply Forall_notSpaceAt_clean|].
  constructor; [reflexivity | now apply Forall_notSpaceAt_clean].
Qed.

(** Where [x] occurs once, the split around it is unique. *)
Lemma split_at_unique (x : N) (a b a' b' : jsstring) :
  ~ In x a' -> ~ In x b' -> a ++ x :: b = a' ++ x :: b' -> a = a' /\ b = b'.
Proof using.
  revert a'. induction a as [|y a IH]; intros [|y' a'] Ha' Hb' E;
    simpl in E, Ha'.
  - injection E as ->. auto.
  - injection E as -> _. exfalso. apply Ha'. now left.
  - injection E as -> E. exfalso. apply Hb'. rewrite <- E.
    apply in_or_app. right. now left.
  - injection E as -> E. destruct (IH a') as [-> ->]; auto.
Qed.

(** A string of the shape has its [@], and a [.] after every [@] in it. *)
Lemma emailShape_has_at (v : jsstring) : emailShape v -> In 64 v.
Proof.
  intros (a & b & c & -> & _). apply in_or_app. right. now left.
Qed.

Lemma emailShape_dot_after_at (v a b : jsstring) :
  emailShape v -> v = a ++ 64 :: b -> In 46 b.
Proof.
  intros (a' & b' & c' & -> & _ & _ & _ & Fa & Fb & Fc) E.
  symmetry in E. apply split_at_unique in E as [_ ->].
  - apply in_or_app. right. now left.
  - now apply Forall_notSpaceAt_no_at.
  - intros Hin. apply in_app_or in Hin as [Hin | [Hin | Hin]].
    + revert Hin. now apply Forall_notSpaceAt_no_at.
    + discriminate.
    + revert Hin. now apply Forall_notSpaceAt_no_at.
Qed.

(** ** What [trim] keeps *)

Lemma trimStart_In (x : N) (s : jsstring) : In x (trimStart s) -> In x s.
Proof.
  induction s as [|c s IH]; simpl; [auto|].
  destruct (isWhiteSpace c); [intros H; right; auto | auto].
Qed.

Lemma trimEnd_In (x : N) (s : jsstring) : In x (trimEnd s) -> In x s.
Proof.
  unfold trimEnd. intros H. apply In_rev in H. apply trimStart_In in H.
  now apply In_rev in H.
Qed.

Lemma trim_In (x : N) (s : jsstring) : In x (trim s) -> In x s.
Proof. unfold trim. intros H. now apply trimStart_In, trimEnd_In. Qed.

Lemma trimStart_app_black (x : N) (a b : jsstring) :
  isWhiteSpace x = false -> trimStart (a ++ x :: b) = trimStart a ++ x :: b.
Proof.
  intros Hx. induction a as [|c a IH]; simpl.
  - now rewrite Hx.
  - destruct (isWhiteSpace c); [exact IH | reflexivity].
Qed.

Lemma trimEnd_app_black (x : N) (a b : jsstring) :
  isWhiteSpace x = false -> trimEnd (a ++ x :: b) = a ++ x :: trimEnd b.
Proof.
  intros Hx. unfold trimEnd. rewrite rev_app_distr. simpl.
  rewrite <- app_assoc. simpl. rewrite trimStart_app_black by assumption.
  rewrite rev_app_distr. simpl. rewrite rev_involutive, <- app_assoc.
  reflexivity.
Qed.

Lemma trim_app_black (x : N) (a b : jsstring) :
  isWhiteSpace x = false -> trim (a ++ x :: b) = trimStart a ++ x :: trimEnd b.
Proof.
  intros Hx. unfold trim. rewrite trimStart_app_black by assumption.
  now apply trimEnd_app_black.
Qed.

(** ** The text validators *)

Ltac run_script :=
  unfold result, after, bind, gets, ret, showError, clearError, modify;
  cbn [fst snd].

(** C6.  For every value of the name control: when the trimmed value is
    empty the name validator fails and shows the Required message; when
    its length is 1 the validator fails and shows the TooShort message;
    when its length is at least 2 the validator succeeds and clears the
    error slot. *)
Theorem validateName_spec (p : page) :
  let v := trim (fullName (values p)) in
  (v = [] ->
     result validateName p = false
     /\ errName (errors (after validateName p)) = Node msgNameRequired false)
  /\ (List.length v = 1%nat ->
     result validateName p = false
     /\ errName (errors (after validateName p)) = Node msgNameTooShort false)
  /\ ((2 <= List.length v)%nat ->
     result validateName p = true
     /\ errName (errors (after validateName p)) = Node [] true).
Proof.
  intros v. unfold validateName. run_script. fold v.
  split; [|split]; intros H.
  - rewrite H. split; reflexivity.
  - destruct v as [|c [|d w]]; try discriminate. split; reflexivity.
  - destruct v as [|c [|d w]]; simpl in H; try lia. split; reflexivity.
Qed.

(** C5.  For every value of the email control: when the trimmed value is
    empty the email validator fails and shows the Required message; when
    it is not empty and not of the shape [a@b.c] (each part non-empty,
    free of white space and of [@]) the validator fails and shows the
    InvalidFormat message; otherwise it succeeds.  In particular every
    value of that shape succeeds, a value without [@] fails, and a value
    with no [.] after an [@] fails. *)
Theorem validateEmail_spec (p : page) :
  let raw := email (values p) in
  let v := trim raw in
  (v = [] ->
     result validateEmail p = false
     /\ errEmail (errors (after validateEmail p)) = Node msgEmailRequired false)
  /\ (v <> [] -> ~ emailShape v ->
     result validateEmail p = false
     /\ errEmail (errors (after validateEmail p)) = Node msgEmailInvalid false)
  /\ (emailShape v ->
     result validateEmail p = true
     /\ errEmail (errors (after validateEmail p)) = Node [] true)
  /\ (emailShape raw -> result validateEmail p = true)
  /\ (~ In 64 raw -> result validateEmail p = false)
  /\ (forall a b, raw = a ++ 64 :: b -> ~ In 46 b ->
        result validateEmail p = false).
Proof.
  intros raw v.
  assert (Hshape : emailShape v ->
            result validateEmail p = true
            /\ errEmail (errors (after validateEmail p)) = Node [] true).
  { intros Hs. unfold validateEmail. run_script. fold raw. fold v.
    assert (Hne : falsy v = false).
    { destruct Hs as (a & b & c & -> & Ha & _). destruct a; [congruence|reflexivity]. }
    apply re_shape in Hs. rewrite Hne, Hs. split; reflexivity. }
  assert (Hbad : ~ emailShape v -> result validateEmail p = false).
  { intros Hs. unfold validateEmail. run_script. fold raw. fold v.
    destruct (falsy v); [reflexivity|].
    destruct (test re v) eqn:Ht; [|reflexivity].
    apply re_shape in Ht. contradiction. }
  split; [|split; [|split; [|split; [|split]]]].
  - intros H. unfold validateEmail. run_script. fold raw. fold v.
    rewrite H. split; reflexivity.
  - intros Hne Hs. split; [now apply Hbad|].
    unfold validateEmail. run_script. fold raw. fold v.
    destruct v as [|c w] eqn:Ev; [congruence|]. simpl falsy. cbv iota.
    destruct (test re (c :: w)) eqn:Ht; [|reflexivity].
    apply re_shape in Ht. contradiction.
  - exact Hshape.
  - intros Hs. apply Hshape. unfold v. rewrite trim_id; [assumption|].
    now apply emailShape_clean.
  - intros Hno. apply Hbad. intros Hs. apply emailShape_has_at in Hs.
    apply Hno. now apply trim_In.
  - intros a b E Hno. apply Hbad. intros Hs. unfold v in Hs.
    rewrite E, trim_app_black in Hs by reflexivity.
    apply Hno, trimEnd_In.
    exact (emailShape_dot_after_at _ _ _ Hs eq_refl).
Qed.

(** A value with no white space at either end is its own trimmed value,
    whatever it holds in between. *)
Lemma trim_cleanEnds (s : jsstring) : cleanEnds s -> trim s = s.
Proof.
  intros [Hhd Hlast]. unfold trim.
  assert (Es : trimStart s = s)
    by (destruct s; [|simpl in Hhd; simpl; rewrite Hhd]; reflexivity).
  rewrite Es. unfold trimEnd.
  destruct s as [|c s] using rev_ind; [reflexivity|].
  rewrite last_last in Hlast. rewrite rev_app_distr. simpl.
  rewrite Hlast. simpl. now rewrite rev_involutive.
Qed.

(** C4 (as amended).  The cover-letter validator measures the trimmed
    value: when it is empty (in particular when the control is empty) the
    validator succeeds and clears the error slot; when its length is
    between 1 and 19 the validator fails and shows the TooShort message;
    when its length is at least 20 the validator succeeds.  A value with
    no white space at either end is measured as it is, whatever it holds
    in between, so such a value of exactly 20 characters succeeds and one
    of 1 to 19 characters fails. *)
Theorem validateCover_trimmed (p : page) :
  let raw := cover (values p) in
  let v := trim raw in
  (raw = [] -> result validateCover p = true)
  /\ (v = [] ->
     result validateCover p = true
     /\ errCover (errors (after validateCover p)) = Node [] true)
  /\ ((1 <= List.length v <= 19)%nat ->
     result validateCover p = false
     /\ errCover (errors (after validateCover p))
        = Node (lit "If provided, cover letter should be at least 20 characters.")
               false)
  /\ ((20 <= List.length v)%nat ->
     result validateCover p = true
     /\ errCover (errors (after validateCover p)) = Node [] true)
  /\ (cleanEnds raw -> v = raw)
  /\ (cleanEnds raw -> List.length raw = 20%nat ->
     result validateCover p = true)
  /\ (cleanEnds raw -> (20 <= List.length raw)%nat ->
     result validateCover p = true)
  /\ (cleanEnds raw -> (1 <= List.length raw <= 19)%nat ->
     result validateCover p = false).
Proof.
  intros raw v.
  assert (Hshort : (1 <= List.length v <= 19)%nat ->
            result validateCover p = false
            /\ errCover (errors (after validateCover p))
               = Node (lit "If provided, cover letter should be at least 20 characters.")
                      false).
  { unfold validateCover. run_script. fold raw. fold v.
    intros [Hlo Hhi]. destruct v as [|c w]; [simpl in Hlo; lia|].
    simpl falsy. cbv iota.
    assert (E : (List.length (c :: w) <? 20)%nat = true)
      by (apply Nat.ltb_lt; lia).
    rewrite E. split; reflexivity. }
  assert (Hlong : (20 <= List.length v)%nat ->
            result validateCover p = true
            /\ errCover (errors (after validateCover p)) = Node [] true).
  { unfold validateCover. run_script. fold raw. fold v.
    intros Hlo. destruct v as [|c w]; [simpl in Hlo; lia|].
    simpl falsy. cbv iota.
    assert (E : (List.length (c :: w) <? 20)%nat = false)
      by (apply Nat.ltb_ge; lia).
    rewrite E. split; reflexivity. }
  assert (Hclean : cleanEnds raw -> v = raw) by apply trim_cleanEnds.
  split; [|split; [|split; [|split; [|split; [|split; [|split]]]]]].
  - intros H. unfold validateCover. run_script. fold raw. rewrite H. reflexivity.
  - intros H. unfold validateCover. run_script. fold raw. fold v. rewrite H.
    split; reflexivity.
  - exact Hshort.
  - exact Hlong.
  - exact Hclean.
  - intros Hc Hl. apply Hlong. rewrite (Hclean Hc). lia.
  - intros Hc Hl. apply Hlong. now rewrite (Hclean Hc).
  - intros Hc Hl. apply Hshort. now rewrite (Hclean Hc).
Qed.

Lemma validatePortfolio_empty (p : page) :
  trim (portfolio (values p)) = [] ->
  result validatePortfolio p = true
  /\ errPortfolio (errors (after validatePortfolio p)) = Node [] true.
Proof.
  intros H. unfold validatePortfolio. run_script. rewrite H. split; reflexivity.
Qed.

Lemma validatePortfolio_unparsed (p : page) :
  trim (portfolio (values p)) <> [] ->
  newURL (trim (portfolio (values p))) = None ->
  result validatePortfolio p = false
  /\ errPortfolio (errors (after validatePortfolio p))
     = Node msgPortfolioInvalid false.
Proof.
  intros Hne Hu. unfold validatePortfolio. run_script. rewrite Hu.
  destruct (trim (portfolio (values p))); [congruence|]. split; reflexivity.
Qed.

Lemma validatePortfolio_parsed (p : page) (s : jsstring) :
  trim (portfolio (values p)) <> [] ->
  newURL (trim (portfolio (values p))) = Some s ->
  result validatePortfolio p = includes [lit "http:"; lit "https:"] s
  /\ errPortfolio (errors (after validatePortfolio p))
     = if includes [lit "http:"; lit "https:"] s then Node [] true
       else Node msgPortfolioScheme false.
Proof.
  intros Hne Hu. unfold validatePortfolio. run_script. rewrite Hu.
  destruct (trim (portfolio (values p))); [congruence|]. simpl falsy. cbv iota.
  destruct (includes [lit "http:"; lit "https:"] s); split; reflexivity.
Qed.

(** C7.  For every value of the portfolio control: when the trimmed value
    is empty the portfolio validator succeeds; when it is not empty and
    the host does not parse it as a URL the validator fails and shows the
    InvalidURL message; when it parses with a protocol other than [http:]
    and [https:] the validator fails and shows the DisallowedScheme
    message; when it parses with one of the two the validator succeeds.
    So, on a host that rejects [not a url], reads [ftp://x.com] as an ftp
    URL and [https://example.com] as an https URL, the three values fail
    with InvalidURL, fail with DisallowedScheme and succeed. *)
Theorem validatePortfolio_spec (p : page) :
  let v := trim (portfolio (values p)) in
  (v = [] ->
     result validatePortfolio p = true
     /\ errPortfolio (errors (after validatePortfolio p)) = Node [] true)
  /\ (v <> [] -> newURL v = None ->
     result validatePortfolio p = false
     /\ errPortfolio (errors (after validatePortfolio p))
        = Node msgPortfolioInvalid false)
  /\ (forall s, v <> [] -> newURL v = Some s ->
        s <> lit "http:" -> s <> lit "https:" ->
     result validatePortfolio p = false
     /\ errPortfolio (errors (after validatePortfolio p))
        = Node msgPortfolioScheme false)
  /\ (forall s, v <> [] -> newURL v = Some s ->
        s = lit "http:" \/ s = lit "https:" ->
     result validatePortfolio p = true
     /\ errPortfolio (errors (after validatePortfolio p)) = Node [] true)
  /\ (portfolio (values p) = lit "not a url" ->
      newURL (lit "not a url") = None ->
     result validatePortfolio p = false
     /\ errPortfolio (errors (after validatePortfolio p))
        = Node msgPortfolioInvalid false)
  /\ (portfolio (values p) = lit "ftp://x.com" ->
      newURL (lit "ftp://x.com") = Some (lit "ftp:") ->
     result validatePortfolio p = false
     /\ errPortfolio (errors (after validatePortfolio p))
        = Node msgPortfolioScheme false)
  /\ (portfolio (values p) = lit "https://example.com" ->
      newURL (lit "https://example.com") = Some (lit "https:") ->
     result validatePortfolio p = true
     /\ errPortfolio (errors (after validatePortfolio p)) = Node [] true).
Proof.
  intros v.
  assert (Hbad : forall s, v <> [] -> newURL v = Some s ->
            s <> lit "http:" -> s <> lit "https:" ->
            result validatePortfolio p = false
            /\ errPortfolio (errors (after validatePortfolio p))
               = Node msgPortfolioScheme false).
  { intros s Hne Hu H1 H2.
    destruct (validatePortfolio_parsed p s Hne Hu) as [-> ->].
    destruct (includes [lit "http:"; lit "https:"] s) eqn:E; [|split; reflexivity].
    apply includes_In in E. destruct E as [E|[E|[]]]; congruence. }
  assert (Hok : forall s, v <> [] -> newURL v = Some s ->
            s = lit "http:" \/ s = lit "https:" ->
            result validatePortfolio p = true
            /\ errPortfolio (errors (after validatePortfolio p)) = Node [] true).
  { intros s Hne Hu Hs.
    destruct (validatePortfolio_parsed p s Hne Hu) as [-> ->].
    destruct Hs as [-> | ->]; split; reflexivity. }
  split; [|split; [|split; [|split; [|split; [|split]]]]].
  - apply validatePortfolio_empty.
  - apply validatePortfolio_unparsed.
  - exact Hbad.
  - exact Hok.
  - intros E Hu. apply validatePortfolio_unparsed; rewrite E; [discriminate|exact Hu].
  - intros E Hu. apply (Hbad (lit "ftp:")); try discriminate;
      unfold v; rewrite E; [discriminate | exact Hu].
  - intros E Hu. apply (Hok (lit "https:")); [| |now right];
      unfold v; rewrite E; [discriminate | exact Hu].
Qed.

(** ** The resume validator *)

Lemma split_nonempty (sep : N) (s : jsstring) : split sep s <> [].
Proof.
  destruct s as [|c s]; simpl; [discriminate|].
  destruct (c =? sep); [discriminate|].
  destruct (split sep s); discriminate.
Qed.

Lemma split_no_sep (sep : N) (s : jsstring) : ~ In sep s -> split sep s = [s].
Proof using.
  induction s as [|c s IH]; simpl; intros H; [reflexivity|].
  destruct (N.eqb_spec c sep) as [E|E].
  - exfalso. apply H. left. now symmetry.
  - rewrite IH; [reflexivity|]. intros Hin. apply H. now right.
Qed.

Lemma split_at_sep (sep : N) (a b : jsstring) :
  (1 < List.length (split sep (a ++ sep :: b)))%nat
  /\ pop (split sep (a ++ sep :: b)) = pop (split sep b).
Proof.
  unfold pop. induction a as [|c a [IHlen IHlast]]; simpl.
  - rewrite N.eqb_refl. simpl.
    pose proof (split_nonempty sep b) as Hne.
    destruct (split sep b) as [|x l]; [congruence|]. simpl. split; [lia|reflexivity].
  - destruct (c =? sep).
    + destruct (split sep (a ++ sep :: b)) as [|x l]; simpl in *; [lia|].
      split; [lia | exact IHlast].
    + destruct (split sep (a ++ sep :: b)) as [|x [|y l]]; simpl in *; try lia.
      split; [lia | exact IHlast].
Qed.

(** [getExt]: the lower-cased text after the last dot, empty without one. *)
Lemma getExt_no_dot (filename : jsstring) : ~ In 46 filename -> getExt filename = [].
Proof. intros H. unfold getExt. rewrite split_no_sep by assumption. reflexivity. Qed.

Lemma getExt_after_last_dot (a e : jsstring) :
  ~ In 46 e -> getExt (a ++ 46 :: e) = toLowerCase e.
Proof.
  intros H. unfold getExt. destruct (split_at_sep 46 a e) as [Hlen Hpop].
  apply Nat.ltb_lt in Hlen. rewrite Hlen, Hpop, split_no_sep by assumption.
  reflexivity.
Qed.

(** The texts the script shows, unit for unit. *)
Lemma script_texts :
  msgNameRequired = lit "Full name is required."
  /\ msgNameTooShort = lit "Please enter your full name."
  /\ msgEmailRequired = lit "Email is required."
  /\ msgEmailInvalid = lit "Please enter a valid email address."
  /\ msgCoverTooShort
     = lit "If provided, cover letter should be at least 20 characters."
  /\ msgPortfolioScheme = lit "Portfolio URL must use http or https."
  /\ msgPortfolioInvalid = lit "Please enter a valid URL for your portfolio."
  /\ msgResumeRequired = lit "Resume is required. Attach a PDF or Word document."
  /\ msgResumeInvalidType = lit "Invalid file type. Allowed: .pdf, .doc, .docx"
  /\ msgFixErrors = lit "Please fix the highlighted errors."
  /\ msgSubmitted = lit "Application submitted successfully " ++ [9989]
  /\ labelSubmit = lit "Submit application"
  /\ labelChecking = lit "Checking...".
Proof. repeat split; reflexivity. Qed.

(** The text of the TooLarge message, with the limit printed. *)
Lemma msgResumeTooLarge_text :
  msgResumeTooLarge = lit "File is too large " ++ [8212] ++ lit " max is 2.0 MB.".
Proof. reflexivity. Qed.

(** Whether the type check lets a file through. *)
Lemma allowed_iff (f : file) :
  includes ALLOWED_MIME (type f) || includes ALLOWED_EXT (getExt (name f)) = true
  <-> In (type f) ALLOWED_MIME \/ In (getExt (name f)) ALLOWED_EXT.
Proof. rewrite orb_true_iff, !includes_In. reflexivity. Qed.

Lemma validateResume_none (p : page) :
  files p = [] ->
  result validateResume p = false
  /\ errResume (errors (after validateResume p)) = Node msgResumeRequired false
  /\ hidden (filePreview (after validateResume p)) = true.
Proof.
  intros H. unfold validateResume, hidePreview. run_script. cbn [files withErrors].
  rewrite H. repeat split; reflexivity.
Qed.

Lemma validateResume_large (p : page) (f : file) (rest : list file) :
  files p = f :: rest -> MAX_FILE_BYTES < size f ->
  result validateResume p = false
  /\ errResume (errors (after validateResume p)) = Node msgResumeTooLarge false
  /\ hidden (filePreview (after validateResume p)) = true.
Proof.
  intros H Hsz. unfold validateResume, hidePreview. run_script.
  cbn [files withErrors]. rewrite H. apply N.ltb_lt in Hsz. rewrite Hsz.
  repeat split; reflexivity.
Qed.

Lemma validateResume_within_limit (p : page) (f : file) (rest : list file) :
  files p = f :: rest -> size f <= MAX_FILE_BYTES ->
  let ok := includes ALLOWED_MIME (type f)
            || includes ALLOWED_EXT (getExt (name f)) in
  result validateResume p = ok
  /\ errResume (errors (after validateResume p))
     = (if ok then Node [] true else Node msgResumeInvalidType false)
  /\ filePreview (after validateResume p)
     = (if ok
        then Node (lit "Selected: " ++ name f ++ lit " ("
                       ++ prettyBytes (size f) ++ lit ")") false
        else Node (textContent (filePreview p)) true).
Proof.
  intros H Hsz ok. subst ok.
  unfold validateResume, hidePreview, unhidePreview, setPreviewText. run_script.
  cbn [files withErrors]. rewrite H. apply N.ltb_ge in Hsz. rewrite Hsz.
  destruct (includes ALLOWED_MIME (type f));
    destruct (includes ALLOWED_EXT (getExt (name f)));
    repeat split; reflexivity.
Qed.

Lemma toLowerCase_ascii (e : jsstring) :
  forallb isAscii e = true -> toLowerCase e = map lowerAscii e.
Proof. intros H. unfold toLowerCase. now rewrite H. Qed.

(** The members of the two allowed sets. *)
Lemma ALLOWED_MIME_members (x : jsstring) :
  In x ALLOWED_MIME
  <-> x = lit "application/pdf" \/ x = lit "application/msword"
      \/ x = lit "application/vnd.openxmlformats-officedocument.wordprocessingml.document".
Proof.
  unfold ALLOWED_MIME. cbn [In]. split.
  - intros [H|[H|[H|[]]]]; auto.
  - intros [H|[H|H]]; auto.
Qed.

Lemma ALLOWED_EXT_members (x : jsstring) :
  In x ALLOWED_EXT <-> x = lit "pdf" \/ x = lit "doc" \/ x = lit "docx".
Proof.
  unfold ALLOWED_EXT. cbn [In]. split.
  - intros [H|[H|[H|[]]]]; auto.
  - intros [H|[H|H]]; auto.
Qed.

(** Lower-casing and equality up to ASCII capitals. *)
Lemma foldsTo_lowerAscii (e : jsstring) : foldsTo e (map lowerAscii e).
Proof.
  induction e as [|c e IH]; simpl; constructor; [|exact IH].
  unfold lowerAscii. destruct ((65 <=? c) && (c <=? 90)) eqn:Hcap; [|now left].
  apply andb_true_iff in Hcap as [H1 H2]. apply N.leb_le in H1, H2.
  right. split; [split; assumption | reflexivity].
Qed.

Lemma foldsTo_small (e x : jsstring) :
  foldsTo e x ->
  Forall (fun d => isAscii d = true /\ lowerAscii d = d) x ->
  forallb isAscii e = true /\ map lowerAscii e = x.
Proof.
  induction 1 as [|c d e x Hcd _ IH]; intros Hx; [split; reflexivity|].
  inversion Hx as [|d' x' [Hd1 Hd2] Hx']; subst.
  destruct (IH Hx') as [IH1 IH2]. simpl. rewrite IH1, IH2.
  destruct Hcd as [-> | [[Hlo Hhi] ->]].
  - rewrite Hd1, Hd2. split; reflexivity.
  - assert (Ea : isAscii c = true) by (apply N.ltb_lt; lia).
    assert (El : lowerAscii c = c + 32).
    { unfold lowerAscii. apply N.leb_le in Hlo, Hhi. now rewrite Hlo, Hhi. }
    rewrite Ea, El. split; reflexivity.
Qed.

Lemma foldsTo_allowed (e x : jsstring) :
  x = lit "pdf" \/ x = lit "doc" \/ x = lit "docx" ->
  foldsTo e x -> toLowerCase e = x.
Proof.
  intros Hx He.
  assert (Hsmall : Forall (fun d => isAscii d = true /\ lowerAscii d = d) x)
    by (destruct Hx as [-> | [-> | ->]]; repeat constructor).
  destruct (foldsTo_small e x He Hsmall) as [Ha <-].
  now apply toLowerCase_ascii.
Qed.

(** C2.  For every selected file of acceptable size, the resume validator
    succeeds exactly when the file's content type is [application/pdf],
    [application/msword] or
    [application/vnd.openxmlformats-officedocument.wordprocessingml.document],
    or the file's extension is [pdf], [doc] or [docx]; either is enough.
    The extension is the text after the last dot of the name, lower-cased,
    and empty when the name has no dot, in which case only the content
    type counts; an extension that is one of the three up to capitals is
    accepted, and an ASCII extension is accepted only then.  A failure
    shows the InvalidType message.  So [resume.PDF] with an empty content
    type succeeds, and [resume.txt] of type [text/plain] fails with the
    InvalidType message. *)
Theorem validateResume_type (p : page) (f : file) (rest : list file) :
  files p = f :: rest ->
  size f <= MAX_FILE_BYTES ->
  let mimeOk :=
    type f = lit "application/pdf" \/ type f = lit "application/msword"
    \/ type f
       = lit "application/vnd.openxmlformats-officedocument.wordprocessingml.document" in
  let extOk (x : jsstring) := x = lit "pdf" \/ x = lit "doc" \/ x = lit "docx" in
  (result validateResume p = true <-> mimeOk \/ extOk (getExt (name f)))
  /\ (result validateResume p = false ->
      errResume (errors (after validateResume p))
      = Node (lit "Invalid file type. Allowed: .pdf, .doc, .docx") false)
  /\ (forall a e, name f = a ++ 46 :: e -> ~ In 46 e ->
        getExt (name f) = toLowerCase e)
  /\ (~ In 46 (name f) ->
      getExt (name f) = [] /\ (result validateResume p = true <-> mimeOk))
  /\ (forall a e x, name f = a ++ 46 :: e -> ~ In 46 e ->
        extOk x -> foldsTo e x -> result validateResume p = true)
  /\ (forall a e, name f = a ++ 46 :: e -> ~ In 46 e ->
        forallb isAscii e = true -> result validateResume p = true ->
        mimeOk \/ exists x, extOk x /\ foldsTo e x)
  /\ (name f = lit "resume.PDF" -> type f = [] ->
      result validateResume p = true)
  /\ (name f = lit "resume.txt" -> type f = lit "text/plain" ->
      result validateResume p = false
      /\ errResume (errors (after validateResume p))
         = Node (lit "Invalid file type. Allowed: .pdf, .doc, .docx") false).
Proof.
  intros Hf Hsz mimeOk extOk.
  destruct (validateResume_within_limit p f rest Hf Hsz) as (Hres & Herr & _).
  assert (Hiff : result validateResume p = true
                 <-> mimeOk \/ extOk (getExt (name f))).
  { rewrite Hres, allowed_iff, ALLOWED_MIME_members, ALLOWED_EXT_members.
    reflexivity. }
  split; [exact Hiff|]. split; [|split; [|split; [|split; [|split; [|split]]]]].
  - intros Hfail. rewrite Herr. rewrite Hres in Hfail. now rewrite Hfail.
  - intros a e -> He. now apply getExt_after_last_dot.
  - intros Hno. pose proof (getExt_no_dot _ Hno) as E. split; [exact E|].
    rewrite Hiff, E. split; [|now left].
    intros [H | [H | [H | H]]]; [exact H | discriminate H ..].
  - intros a e x Hn He Hx Hfold. apply Hiff. right.
    rewrite Hn, getExt_after_last_dot by assumption.
    now rewrite (foldsTo_allowed e x Hx Hfold).
  - intros a e Hn He Hascii Hok. apply Hiff in Hok as [Hm | Hx]; [now left|].
    right. rewrite Hn, getExt_after_last_dot in Hx by assumption.
    exists (toLowerCase e). split; [exact Hx|].
    rewrite toLowerCase_ascii by assumption. apply foldsTo_lowerAscii.
  - intros Hn Ht. rewrite Hres, Hn, Ht. reflexivity.
  - intros Hn Ht. rewrite Hres, Herr, Hn, Ht. split; reflexivity.
Qed.

(** C3.  The size limit is 2,097,152 bytes and the comparison is strict:
    for every selected file of an allowed type, a file of exactly
    2,097,152 bytes (or fewer) passes, and a file of 2,097,153 bytes or
    more fails with the TooLarge message. *)
Theorem validateResume_size (p : page) (f : file) (rest : list file) :
  files p = f :: rest ->
  In (type f) ALLOWED_MIME \/ In (getExt (name f)) ALLOWED_EXT ->
  MAX_FILE_BYTES = 2097152
  /\ (size f = 2097152 -> result validateResume p = true)
  /\ (size f <= 2097152 -> result validateResume p = true)
  /\ (2097153 <= size f ->
      result validateResume p = false
      /\ errResume (errors (after validateResume p))
         = Node msgResumeTooLarge false).
Proof.
  intros Hf Hty. apply allowed_iff in Hty.
  assert (Hle : size f <= 2097152 -> result validateResume p = true).
  { intros Hsz. destruct (validateResume_within_limit p f rest Hf Hsz) as (Hres & _).
    now rewrite Hres. }
  split; [reflexivity|]. split; [|split].
  - intros E. apply Hle. rewrite E. reflexivity.
  - exact Hle.
  - intros Hsz.
    assert (Hlt : MAX_FILE_BYTES < size f) by (change MAX_FILE_BYTES with 2097152; lia).
    destruct (validateResume_large p f rest Hf Hlt) as (Hres & Herr & _).
    now split.
Qed.

(** C10.  The resume validator checks for a file first, then the size,
    then the type: with no file it fails with the Required message; for
    every selected file larger than 2,097,152 bytes it fails with the
    TooLarge message whatever the file's content type and name; and every
    failing run leaves the file preview hidden. *)
Theorem validateResume_order (p : page) :
  (files p = [] ->
     result validateResume p = false
     /\ errResume (errors (after validateResume p))
        = Node msgResumeRequired false)
  /\ (forall f rest, files p = f :: rest -> MAX_FILE_BYTES < size f ->
     result validateResume p = false
     /\ errResume (errors (after validateResume p))
        = Node msgResumeTooLarge false)
  /\ (result validateResume p = false ->
     hidden (filePreview (after validateResume p)) = true).
Proof.
  split; [|split].
  - intros H. destruct (validateResume_none p H) as (H1 & H2 & _). now split.
  - intros f rest Hf Hsz.
    destruct (validateResume_large p f rest Hf Hsz) as (H1 & H2 & _). now split.
  - intros Hfail. destruct (files p) as [|f rest] eqn:Hf.
    + now destruct (validateResume_none p Hf) as (_ & _ & H).
    + destruct (N.lt_ge_cases MAX_FILE_BYTES (size f)) as [Hsz|Hsz].
      * now destruct (validateResume_large p f rest Hf Hsz) as (_ & _ & H).
      * destruct (validateResume_within_limit p f rest Hf Hsz) as (Hres & _ & Hprev).
        rewrite Hprev. rewrite Hres in Hfail. now rewrite Hfail.
Qed.

(** ** The validators are local *)

Lemma bind_run {A B : Type} (c : M A) (k : A -> M B) (p : page) :
  bind c k p = k (result c p) (after c p).
Proof. unfold bind, result, after. destruct (c p). reflexivity. Qed.

Lemma page_eta (p : page) :
  Page (values p) (defaults p) (files p) (errors p) (filePreview p)
       (submitBtn p) (formStatus p) (timers p) (isDirty p) = p.
Proof. destruct p. reflexivity. Qed.

Lemma node_eta (n : node) : Node (textContent n) (hidden n) = n.
Proof. destruct n. reflexivity. Qed.

Lemma validateName_local : localTo ErrName validateName.
Proof.
  intros p. unfold verdict, validateName. run_script.
  cbn [probe values withValues withFiles withFilePreview withErrors filePreview].
  destruct (falsy (trim (fullName (values p))));
    [|destruct (List.length (trim (fullName (values p))) <? 2)%nat];
    reflexivity.
Qed.

Lemma validateEmail_local : localTo ErrEmail validateEmail.
Proof.
  intros p. unfold verdict, validateEmail. run_script.
  cbn [probe values withValues withFiles withFilePreview withErrors filePreview].
  destruct (falsy (trim (email (values p))));
    [|destruct (test re (trim (email (values p))))];
    reflexivity.
Qed.

Lemma validateCover_local : localTo ErrCover validateCover.
Proof.
  intros p. unfold verdict, validateCover. run_script.
  cbn [probe values withValues withFiles withFilePreview withErrors filePreview].
  destruct (falsy (trim (cover (values p))));
    [|destruct (List.length (trim (cover (values p))) <? 20)%nat];
    reflexivity.
Qed.

Lemma validatePortfolio_local : localTo ErrPortfolio validatePortfolio.
Proof.
  intros p. unfold verdict, validatePortfolio. run_script.
  cbn [probe values withValues withFiles withFilePreview withErrors filePreview].
  destruct (falsy (trim (portfolio (values p)))); [reflexivity|].
  destruct (newURL (trim (portfolio (values p)))) as [s|]; [|reflexivity].
  destruct (includes [lit "http:"; lit "https:"] s); reflexivity.
Qed.

Lemma validateResume_local : localTo ErrResume validateResume.
Proof.
  intros p.
  unfold verdict, validateResume, hidePreview, unhidePreview, setPreviewText.
  run_script.
  cbn [probe files withValues withFiles withFilePreview withErrors filePreview].
  destruct (files p) as [|f rest]; [reflexivity|].
  destruct (MAX_FILE_BYTES <? size f); [reflexivity|].
  destruct (includes ALLOWED_MIME (type f));
    destruct (includes ALLOWED_EXT (getExt (name f))); reflexivity.
Qed.

(** Consequences of locality, for any computation. *)
Section Local.

Variable i : errId.
Variable c : M bool.
Hypothesis Hc : localTo i c.

Lemma local_result (p : page) : result c p = fst (fst (verdict i c (probe p))).
Proof. unfold result at 1. now rewrite Hc. Qed.

Lemma local_after (p : page) :
  after c p
  = withFilePreview (snd (verdict i c (probe p)))
      (withErrors (setErr i (snd (fst (verdict i c (probe p)))) (errors p)) p).
Proof. unfold after at 1. now rewrite Hc. Qed.

Lemma local_slot (p : page) :
  getErr i (errors (after c p)) = snd (fst (verdict i c (probe p))).
Proof. rewrite local_after. destruct i; reflexivity. Qed.

Lemma local_preview (p : page) :
  filePreview (after c p) = snd (verdict i c (probe p)).
Proof. rewrite local_after. reflexivity. Qed.

Lemma local_other_slot (j : errId) (p : page) :
  j <> i -> getErr j (errors (after c p)) = getErr j (errors p).
Proof. intros H. rewrite local_after. destruct i, j; try reflexivity; congruence. Qed.

Lemma local_frame (p : page) :
  values (after c p) = values p
  /\ defaults (after c p) = defaults p
  /\ files (after c p) = files p
  /\ submitBtn (after c p) = submitBtn p
  /\ formStatus (after c p) = formStatus p
  /\ timers (after c p) = timers p
  /\ isDirty (after c p) = isDirty p.
Proof. rewrite local_after. repeat split; reflexivity. Qed.

(** Two pages that read the same get the same result, slot and preview. *)
Lemma local_probe (p q : page) :
  probe p = probe q ->
  result c p = result c q
  /\ getErr i (errors (after c p)) = getErr i (errors (after c q))
  /\ filePreview (after c p) = filePreview (after c q).
Proof.
  intros E. rewrite !local_result, !local_slot, !local_preview, E.
  repeat split; reflexivity.
Qed.

(** When the preview is left alone the page reads the same afterwards. *)
Lemma local_probe_after (p : page) :
  filePreview (after c p) = filePreview p -> probe (after c p) = probe p.
Proof.
  intros E. destruct (local_frame p) as (Hv & _ & Hf & _).
  unfold probe. now rewrite E, Hv, Hf.
Qed.

End Local.

(** The text validators leave the preview line alone. *)
Lemma validateName_preview (p : page) :
  filePreview (after validateName p) = filePreview p.
Proof.
  unfold validateName. run_script.
  destruct (falsy (trim (fullName (values p))));
    [|destruct (List.length (trim (fullName (values p))) <? 2)%nat];
    reflexivity.
Qed.

Lemma validateEmail_preview (p : page) :
  filePreview (after validateEmail p) = filePreview p.
Proof.
  unfold validateEmail. run_script.
  destruct (falsy (trim (email (values p))));
    [|destruct (test re (trim (email (values p))))];
    reflexivity.
Qed.

Lemma validateCover_preview (p : page) :
  filePreview (after validateCover p) = filePreview p.
Proof.
  unfold validateCover. run_script.
  destruct (falsy (trim (cover (values p))));
    [|destruct (List.length (trim (cover (values p))) <? 20)%nat];
    reflexivity.
Qed.

Lemma validatePortfolio_preview (p : page) :
  filePreview (after validatePortfolio p) = filePreview p.
Proof.
  unfold validatePortfolio. run_script.
  destruct (falsy (trim (portfolio (values p)))); [reflexivity|].
  destruct (newURL (trim (portfolio (values p)))) as [s|]; [|reflexivity].
  destruct (includes [lit "http:"; lit "https:"] s); reflexivity.
Qed.

(** ** The five validators in a row *)

Lemma probe_starting (p : page) : probe (starting p) = probe p.
Proof. reflexivity. Qed.

Lemma probe_chain (s : page) :
  let p1 := after validateName s in
  let p2 := after validateEmail p1 in
  let p3 := after validateCover p2 in
  let p4 := after validatePortfolio p3 in
  probe p1 = probe s /\ probe p2 = probe s /\ probe p3 = probe s /\ probe p4 = probe s.
Proof.
  intros p1 p2 p3 p4.
  assert (E1 : probe p1 = probe s)
    by (apply (local_probe_after _ _ validateName_local), validateName_preview).
  assert (E2 : probe p2 = probe s).
  { rewrite <- E1.
    apply (local_probe_after _ _ validateEmail_local), validateEmail_preview. }
  assert (E3 : probe p3 = probe s).
  { rewrite <- E2.
    apply (local_probe_after _ _ validateCover_local), validateCover_preview. }
  assert (E4 : probe p4 = probe s).
  { rewrite <- E3.
    apply (local_probe_after _ _ validatePortfolio_local), validatePortfolio_preview. }
  auto.
Qed.

(** Each validator, where it runs in the row, decides as it does alone. *)
Lemma chain_results (s : page) :
  let p1 := after validateName s in
  let p2 := after validateEmail p1 in
  let p3 := after validateCover p2 in
  let p4 := after validatePortfolio p3 in
  result validateEmail p1 = result validateEmail s
  /\ result validateCover p2 = result validateCover s
  /\ result validatePortfolio p3 = result validatePortfolio s
  /\ result validateResume p4 = result validateResume s.
Proof.
  intros p1 p2 p3 p4.
  destruct (probe_chain s) as (E1 & E2 & E3 & E4).
  repeat split.
  - apply (local_probe _ _ validateEmail_local _ _ E1).
  - apply (local_probe _ _ validateCover_local _ _ E2).
  - apply (local_probe _ _ validatePortfolio_local _ _ E3).
  - apply (local_probe _ _ validateResume_local _ _ E4).
Qed.

Lemma validated_frame (s : page) :
  values (validated s) = values s
  /\ defaults (validated s) = defaults s
  /\ files (validated s) = files s
  /\ submitBtn (validated s) = submitBtn s
  /\ formStatus (validated s) = formStatus s
  /\ timers (validated s) = timers s
  /\ isDirty (validated s) = isDirty s.
Proof.
  unfold validated.
  rewrite (local_after _ _ validateResume_local),
          (local_after _ _ validatePortfolio_local),
          (local_after _ _ validateCover_local),
          (local_after _ _ validateEmail_local),
          (local_after _ _ validateName_local).
  repeat split; reflexivity.
Qed.

(** After the row, every slot holds what its own validator decides. *)
Lemma validated_slots (s : page) :
  errName (errors (validated s)) = errName (errors (after validateName s))
  /\ errEmail (errors (validated s)) = errEmail (errors (after validateEmail s))
  /\ errCover (errors (validated s)) = errCover (errors (after validateCover s))
  /\ errPortfolio (errors (validated s))
     = errPortfolio (errors (after validatePortfolio s))
  /\ errResume (errors (validated s)) = errResume (errors (after validateResume s))
  /\ filePreview (validated s) = filePreview (after validateResume s).
Proof.
  destruct (probe_chain s) as (E1 & E2 & E3 & E4).
  pose proof (local_probe _ _ validateEmail_local _ _ E1) as (_ & S2 & _).
  pose proof (local_probe _ _ validateCover_local _ _ E2) as (_ & S3 & _).
  pose proof (local_probe _ _ validatePortfolio_local _ _ E3) as (_ & S4 & _).
  pose proof (local_probe _ _ validateResume_local _ _ E4) as (_ & S5 & P5).
  cbn [getErr] in S2, S3, S4, S5.
  rewrite <- S2, <- S3, <- S4, <- S5, <- P5.
  unfold validated.
  rewrite (local_after _ _ validateResume_local
             (after validatePortfolio
                (after validateCover (after validateEmail (after validateName s))))).
  rewrite (local_after _ _ validatePortfolio_local
             (after validateCover (after validateEmail (after validateName s)))).
  rewrite (local_after _ _ validateCover_local
             (after validateEmail (after validateName s))).
  rewrite (local_after _ _ validateEmail_local (after validateName s)).
  repeat split; reflexivity.
Qed.

(** ** The submit listener *)

Lemma allOk_starting (p : page) : allOk (starting p) = allOk p.
Proof.
  unfold allOk.
  destruct (local_probe _ _ validateName_local _ _ (probe_starting p)) as (-> & _).
  destruct (local_probe _ _ validateEmail_local _ _ (probe_starting p)) as (-> & _).
  destruct (local_probe _ _ validateCover_local _ _ (probe_starting p)) as (-> & _).
  destruct (local_probe _ _ validatePortfolio_local _ _ (probe_starting p)) as (-> & _).
  destruct (local_probe _ _ validateResume_local _ _ (probe_starting p)) as (-> & _).
  reflexivity.
Qed.

(** The listener prevents the default action, runs the five validators on
    the page with the button disabled, and branches on the conjunction of
    their results. *)
Lemma onSubmit_run (p : page) :
  onSubmit p
  = (true,
     if allOk p
     then withTimers (timers (validated (starting p)) ++ [(800, SubmitDone)])
                     (validated (starting p))
     else withFormStatus (Status msgFixErrors (lit "var(--danger)"))
            (withSubmitBtn (Button false labelSubmit) (validated (starting p)))).
Proof.
  rewrite <- allOk_starting. unfold onSubmit.
  rewrite 3 bind_run.
  change (after (setSubmitText labelChecking)
            (after (setSubmitDisabled true) (after (setStatusText []) p)))
    with (starting p).
  rewrite 5 bind_run. cbv zeta.
  destruct (chain_results (starting p)) as (-> & -> & -> & ->).
  fold (validated (starting p)). fold (allOk (starting p)).
  destruct (allOk (starting p)); reflexivity.
Qed.

Lemma onSubmit_result (p : page) : result onSubmit p = true.
Proof. unfold result. now rewrite onSubmit_run. Qed.

Lemma onSubmit_after (p : page) :
  after onSubmit p
  = if allOk p
    then withTimers (timers (validated (starting p)) ++ [(800, SubmitDone)])
                    (validated (starting p))
    else withFormStatus (Status msgFixErrors (lit "var(--danger)"))
           (withSubmitBtn (Button false labelSubmit) (validated (starting p))).
Proof. unfold after. now rewrite onSubmit_run. Qed.

(** C1.  On a submit attempt with at least one invalid field (the
    conjunction of the five validators' results is false): each of the
    five error slots ends as its own validator leaves it, whatever the
    other validators decided, so none was skipped; the listener takes the
    failure branch exactly because that conjunction is false; the submit
    button is enabled again with the label [Submit application]; the
    status line shows the aggregate failure message; and no timeout is
    scheduled. *)
Theorem onSubmit_invalid (p : page) :
  result validateName p && result validateEmail p && result validateCover p
    && result validatePortfolio p && result validateResume p = false ->
  let p' := after onSubmit p in
  errName (errors p') = errName (errors (after validateName p))
  /\ errEmail (errors p') = errEmail (errors (after validateEmail p))
  /\ errCover (errors p') = errCover (errors (after validateCover p))
  /\ errPortfolio (errors p') = errPortfolio (errors (after validatePortfolio p))
  /\ errResume (errors p') = errResume (errors (after validateResume p))
  /\ filePreview p' = filePreview (after validateResume p)
  /\ submitBtn p' = Button false (lit "Submit application")
  /\ formStatus p'
     = Status (lit "Please fix the highlighted errors.") (lit "var(--danger)")
  /\ timers p' = timers p
  /\ result onSubmit p = true.
Proof.
  intros Hbad p'. subst p'. fold (allOk p) in Hbad.
  rewrite onSubmit_result, onSubmit_after, Hbad.
  cbn [errors filePreview submitBtn formStatus timers
       withFormStatus withSubmitBtn].
  destruct (validated_slots (starting p)) as (S1 & S2 & S3 & S4 & S5 & P5).
  destruct (validated_frame (starting p)) as (_ & _ & _ & _ & _ & T & _).
  rewrite S1, S2, S3, S4, S5, P5, T.
  pose proof (local_probe _ _ validateName_local _ _ (probe_starting p)) as (_ & N1 & _).
  pose proof (local_probe _ _ validateEmail_local _ _ (probe_starting p)) as (_ & N2 & _).
  pose proof (local_probe _ _ validateCover_local _ _ (probe_starting p)) as (_ & N3 & _).
  pose proof (local_probe _ _ validatePortfolio_local _ _ (probe_starting p)) as (_ & N4 & _).
  pose proof (local_probe _ _ validateResume_local _ _ (probe_starting p)) as (_ & N5 & Q5).
  cbn [getErr] in N1, N2, N3, N4, N5.
  rewrite N1, N2, N3, N4, N5, Q5.
  repeat split; reflexivity.
Qed.

(** ** Events *)

Lemma after_bind {A B : Type} (c : M A) (k : A -> M B) (p : page) :
  after (bind c k) p = after (k (result c p)) (after c p).
Proof. unfold after at 1. now rewrite bind_run. Qed.

Lemma result_bind {A B : Type} (c : M A) (k : A -> M B) (p : page) :
  result (bind c k) p = result (k (result c p)) (after c p).
Proof. unfold result at 1. now rewrite bind_run. Qed.

Lemma after_modify (f : page -> page) (p : page) : after (modify f) p = f p.
Proof. reflexivity. Qed.

Lemma after_ret {A : Type} (a : A) (p : page) : after (ret a) p = p.
Proof. reflexivity. Qed.

(** The completion callback, field by field. *)
Lemma submitDone_after (q : page) :
  after submitDone q
  = Page (defaults q) (defaults q) [] (errors q)
         (Node (textContent (filePreview q)) true)
         (Button false labelSubmit)
         (Status msgSubmitted (lit "var(--success)"))
         (timers q) (isDirty q).
Proof. reflexivity. Qed.

Ltac step_events :=
  repeat (rewrite after_bind || rewrite after_modify || rewrite after_ret).

(** An event other than a submission or the timeout leaves the submit
    button and the pending timeouts as they are. *)
Lemma dispatch_waiting (e : event) (q : page) :
  whileWaiting e = true ->
  submitBtn (after (dispatch e) q) = submitBtn q
  /\ timers (after (dispatch e) q) = timers q.
Proof.
  destruct e; try discriminate; intros _; unfold dispatch, onFormInput;
    step_events.
  - rewrite (local_after _ _ validateName_local). split; reflexivity.
  - rewrite (local_after _ _ validateEmail_local). split; reflexivity.
  - rewrite (local_after _ _ validateCover_local). split; reflexivity.
  - rewrite (local_after _ _ validatePortfolio_local). split; reflexivity.
  - rewrite (local_after _ _ validateResume_local). split; reflexivity.
  - split; reflexivity.
  - unfold onBeforeUnload, after, bind, gets, ret. cbn [fst snd].
    destruct (isDirty q); split; reflexivity.
Qed.

Lemma run_waiting (es : list event) (q : page) :
  forallb whileWaiting es = true ->
  submitBtn (run es q) = submitBtn q /\ timers (run es q) = timers q.
Proof.
  revert q. induction es as [|e es IH]; intros q H; simpl in *.
  - split; reflexivity.
  - apply andb_true_iff in H as [He Hes].
    destruct (IH (after (dispatch e) q) Hes) as [-> ->].
    now apply dispatch_waiting.
Qed.

(** C8.  On a submit attempt where all five validators succeed the
    listener schedules one timeout of 800 and nothing else; the submit
    button is then disabled with the label [Checking...], and stays so
    through every event that can arrive before the timeout is due; when
    the timeout fires, the button is enabled again with the label
    [Submit application], the status line shows the success message
    [Application submitted successfully] followed by a check mark (code
    unit 9989) in the success colour, the text controls are back to their
    default values, no file is selected and the file preview is hidden. *)
Theorem onSubmit_valid (p : page) :
  result validateName p && result validateEmail p && result validateCover p
    && result validatePortfolio p && result validateResume p = true ->
  let p' := after onSubmit p in
  timers p' = timers p ++ [(800, SubmitDone)]
  /\ submitBtn p' = Button true (lit "Checking...")
  /\ (forall es, forallb whileWaiting es = true ->
        submitBtn (run es p') = Button true (lit "Checking...")
        /\ timers (run es p') = timers p ++ [(800, SubmitDone)])
  /\ (forall q rest, timers q = (800, SubmitDone) :: rest ->
        let q' := after (dispatch TimerFires) q in
        submitBtn q' = Button false (lit "Submit application")
        /\ formStatus q'
           = Status (lit "Application submitted successfully " ++ [9989])
                    (lit "var(--success)")
        /\ values q' = defaults q
        /\ files q' = []
        /\ hidden (filePreview q') = true
        /\ timers q' = rest).
Proof.
  intros Hok p'. fold (allOk p) in Hok.
  assert (Ht : timers p' = timers p ++ [(800, SubmitDone)]).
  { subst p'. rewrite onSubmit_after, Hok. cbn [timers withTimers].
    destruct (validated_frame (starting p)) as (_ & _ & _ & _ & _ & -> & _).
    reflexivity. }
  assert (Hb : submitBtn p' = Button true (lit "Checking...")).
  { subst p'. rewrite onSubmit_after, Hok. cbn [submitBtn withTimers].
    destruct (validated_frame (starting p)) as (_ & _ & _ & -> & _).
    reflexivity. }
  split; [exact Ht|]. split; [exact Hb|]. split.
  - intros es Hes. destruct (run_waiting es p' Hes) as [-> ->]. now split.
  - intros q rest Hq q'. subst q'. unfold dispatch. step_events.
    unfold result, gets. cbn [fst]. rewrite Hq. step_events.
    unfold runCallback. rewrite submitDone_after.
    repeat split; reflexivity.
Qed.

(** ** The navigation guard *)

Lemma dispatch_isDirty (e : event) (p : page) :
  isDirty (after (dispatch e) p) = isDirty p || isInputEvent e.
Proof.
  destruct e; unfold dispatch, onFormInput; cbn [isInputEvent];
    rewrite ?orb_true_r, ?orb_false_r.
  - step_events. reflexivity.
  - step_events. reflexivity.
  - step_events. reflexivity.
  - step_events. reflexivity.
  - step_events. rewrite (local_after _ _ validateResume_local). reflexivity.
  - reflexivity.
  - rewrite onSubmit_after.
    destruct (validated_frame (starting p)) as (_ & _ & _ & _ & _ & _ & Hd).
    destruct (allOk p); cbn [isDirty withTimers withFormStatus withSubmitBtn];
      rewrite Hd; reflexivity.
  - step_events. unfold result, gets. cbn [fst].
    destruct (timers p) as [|[ms []] rest]; reflexivity.
  - unfold onBeforeUnload, after, bind, gets, ret. cbn [fst snd].
    destruct (isDirty p) eqn:E; cbn [snd]; exact E.
Qed.

Lemma run_isDirty (es : list event) (p : page) :
  isDirty (run es p) = isDirty p || existsb isInputEvent es.
Proof.
  revert p. induction es as [|e es IH]; intros p; simpl.
  - now rewrite orb_false_r.
  - rewrite IH, dispatch_isDirty. now rewrite orb_assoc.
Qed.

(** C9.  The dirty flag is false once the script has loaded; after any
    event it is true exactly when it was true before or the event is an
    input event in the form, so the first input event sets it and no
    later event of the page (a submission, the completion with its form
    reset, clearing the file) clears it; the before-unload listener asks
    for confirmation exactly when the flag is true and changes nothing. *)
Theorem isDirty_spec :
  (forall p, isDirty (main p) = false)
  /\ (forall e p, isDirty (after (dispatch e) p) = isDirty p || isInputEvent e)
  /\ (forall es p, isDirty (run es p) = isDirty p || existsb isInputEvent es)
  /\ (forall p, isDirty (after submitDone p) = isDirty p)
  /\ (forall p, result onBeforeUnload p = isDirty p
                /\ after onBeforeUnload p = p).
Proof.
  split; [reflexivity|]. split; [exact dispatch_isDirty|].
  split; [exact run_isDirty|]. split; [reflexivity|].
  intros p. unfold onBeforeUnload, result, after, bind, gets, ret.
  cbn [fst snd]. destruct (isDirty p); split; reflexivity.
Qed.

(** ** Further properties of the validators *)

Ltac page_cbn :=
  cbn [values defaults files errors filePreview submitBtn formStatus timers
       isDirty withValues withFiles withErrors withFilePreview withSubmitBtn
       withFormStatus withTimers withIsDirty setErr getErr errName errEmail
       errCover errResume errPortfolio textContent hidden fst snd].

Ltac open_validators :=
  unfold validator, validateName, validateEmail, validateCover,
    validatePortfolio, validateResume, hidePreview, unhidePreview,
    setPreviewText;
  run_script; page_cbn.

Ltac reuse_cases :=
  repeat match goal with
         | H : ?x = _ |- context [match ?x with _ => _ end] => rewrite H
         end.

Ltac split_cases :=
  repeat (match goal with
          | |- context [match ?x with _ => _ end] =>
              lazymatch x with
              | context [match _ with _ => _ end] => fail
              | _ => destruct x eqn:?
              end
          end; page_cbn; reuse_cases; page_cbn).

Lemma validator_local (i : errId) : localTo i (validator i).
Proof.
  destruct i; simpl;
    [ apply validateName_local | apply validateEmail_local
    | apply validateCover_local | apply validateResume_local
    | apply validatePortfolio_local ].
Qed.

(** X1.  After a validator has run, its error slot is hidden exactly when
    the validator succeeded, and the slot's text is empty exactly then: a
    failure always shows a non-empty message and a success never leaves
    one behind. *)
Theorem slot_shows_verdict (i : errId) (p : page) :
  hidden (getErr i (errors (after (validator i) p))) = result (validator i) p
  /\ (textContent (getErr i (errors (after (validator i) p))) = []
      <-> result (validator i) p = true).
Proof.
  destruct i; open_validators; split_cases;
    (split; [reflexivity | split; intros H; (reflexivity || discriminate H)]).
Qed.

(** X2.  Validating a field twice in a row is the same as validating it
    once: the second run returns the same result and leaves the page as
    the first run left it. *)
Theorem validator_idempotent (i : errId) (p : page) :
  after (validator i) (after (validator i) p) = after (validator i) p
  /\ result (validator i) (after (validator i) p) = result (validator i) p.
Proof.
  destruct i; open_validators; split_cases; split; reflexivity.
Qed.

(** X3.  The validators do not interfere: running one before another
    changes neither the other's result nor the final page, so the page
    after any two of them does not depend on their order. *)
Theorem validators_commute (i j : errId) (p : page) :
  after (validator i) (after (validator j) p)
  = after (validator j) (after (validator i) p)
  /\ result (validator i) (after (validator j) p) = result (validator i) p.
Proof.
  destruct i, j; open_validators; split_cases; split; reflexivity.
Qed.


(** White space around a value is invisible to [trim]. *)
Lemma trimStart_pad (ws s : jsstring) :
  Forall (fun c => isWhiteSpace c = true) ws -> trimStart (ws ++ s) = trimStart s.
Proof.
  induction 1 as [|c ws Hc _ IH]; simpl; [reflexivity|]. now rewrite Hc.
Qed.

Lemma trimStart_blank (ws : jsstring) :
  Forall (fun c => isWhiteSpace c = true) ws -> trimStart ws = [].
Proof.
  intros H. rewrite <- (app_nil_r ws). now rewrite trimStart_pad.
Qed.

Lemma trimEnd_pad (s ws : jsstring) :
  Forall (fun c => isWhiteSpace c = true) ws -> trimEnd (s ++ ws) = trimEnd s.
Proof.
  intros H. unfold trimEnd. rewrite rev_app_distr, trimStart_pad; [reflexivity|].
  apply Forall_forall. intros c Hc. apply In_rev in Hc.
  revert c Hc. now apply Forall_forall.
Qed.

Lemma trim_pad_end (s ws : jsstring) :
  Forall (fun c => isWhiteSpace c = true) ws -> trim (s ++ ws) = trim s.
Proof.
  intros H. unfold trim. induction s as [|c s IH]; simpl.
  - now rewrite trimStart_blank.
  - destruct (isWhiteSpace c); [exact IH|].
    change (c :: s ++ ws) with ((c :: s) ++ ws). now apply trimEnd_pad.
Qed.

Lemma trim_pad (ws s ws' : jsstring) :
  Forall (fun c => isWhiteSpace c = true) ws ->
  Forall (fun c => isWhiteSpace c = true) ws' ->
  trim (ws ++ s ++ ws') = trim s.
Proof.
  intros H H'. rewrite <- (trim_pad_end s ws' H'). unfold trim.
  now rewrite trimStart_pad.
Qed.

(** X4.  White space typed before or after a value never changes what a
    text validator decides: the padded value gets the same result and the
    same error slots as the bare value, for the name, the email, the cover
    letter and the portfolio alike. *)
Theorem padding_ignored (ws v ws' : jsstring) (p : page) :
  Forall (fun c => isWhiteSpace c = true) ws ->
  Forall (fun c => isWhiteSpace c = true) ws' ->
  (result validateName (setFullName (ws ++ v ++ ws') p)
   = result validateName (setFullName v p)
   /\ errors (after validateName (setFullName (ws ++ v ++ ws') p))
      = errors (after validateName (setFullName v p)))
  /\ (result validateEmail (setEmail (ws ++ v ++ ws') p)
      = result validateEmail (setEmail v p)
      /\ errors (after validateEmail (setEmail (ws ++ v ++ ws') p))
         = errors (after validateEmail (setEmail v p)))
  /\ (result validateCover (setCover (ws ++ v ++ ws') p)
      = result validateCover (setCover v p)
      /\ errors (after validateCover (setCover (ws ++ v ++ ws') p))
         = errors (after validateCover (setCover v p)))
  /\ (result validatePortfolio (setPortfolio (ws ++ v ++ ws') p)
      = result validatePortfolio (setPortfolio v p)
      /\ errors (after validatePortfolio (setPortfolio (ws ++ v ++ ws') p))
         = errors (after validatePortfolio (setPortfolio v p))).
Proof.
  intros H H'. pose proof (trim_pad ws v ws' H H') as E.
  unfold setFullName, setEmail, setCover, setPortfolio.
  open_validators. cbn [fullName email cover portfolio]. rewrite E.
  split; [|split; [|split]]; split_cases; split; reflexivity.
Qed.


Lemma validateEmail_accepts (p : page) :
  result validateEmail p = true -> emailShape (trim (email (values p))).
Proof.
  unfold validateEmail. run_script.
  destruct (falsy (trim (email (values p)))); [discriminate|].
  destruct (test re (trim (email (values p)))) eqn:Ht; [|discriminate].
  intros _. now apply re_shape.
Qed.

(** X5.  An address the email validator accepts holds, once trimmed, no
    white space, exactly one [@] and at least five characters. *)
Theorem email_accepted_form (p : page) :
  result validateEmail p = true ->
  let v := trim (email (values p)) in
  Forall (fun c => isWhiteSpace c = false) v
  /\ count_occ N.eq_dec v 64 = 1%nat
  /\ (5 <= List.length v)%nat.
Proof.
  intros H v. apply validateEmail_accepts in H. fold v in H.
  split; [now apply emailShape_clean|].
  destruct H as (a & b & c & -> & Ha & Hb & Hc & Fa & Fb & Fc).
  apply Forall_notSpaceAt_no_at in Fa, Fb, Fc.
  apply (count_occ_not_In N.eq_dec) in Fa, Fb, Fc.
  split.
  - rewrite count_occ_app, Fa. simpl.
    rewrite count_occ_app, Fb. simpl. now rewrite Fc.
  - rewrite length_app. simpl. rewrite length_app. simpl.
    destruct a; [congruence|]. destruct b; [congruence|].
    destruct c; [congruence|]. simpl. lia.
Qed.


(** X6.  The file preview is visible exactly when the resume validator
    succeeds; on success it reads [Selected: <name> (<size>)] for the
    first selected file, and on failure it is hidden with its old text
    left in place. *)
Theorem resume_preview (p : page) :
  hidden (filePreview (after validateResume p)) = negb (result validateResume p)
  /\ (forall f rest, files p = f :: rest -> result validateResume p = true ->
        filePreview (after validateResume p)
        = Node (lit "Selected: " ++ name f ++ lit " ("
                    ++ prettyBytes (size f) ++ lit ")") false)
  /\ (result validateResume p = false ->
        textContent (filePreview (after validateResume p))
        = textContent (filePreview p)).
Proof.
  split; [|split].
  - open_validators. split_cases; reflexivity.
  - intros f rest Hf. open_validators. rewrite Hf. split_cases;
      intros H; (discriminate H || reflexivity).
  - open_validators. split_cases; intros H; (discriminate H || reflexivity).
Qed.

(** The last dot of a name that has one. *)
Lemma last_dot (s : jsstring) :
  In 46 s -> exists a e, s = a ++ 46 :: e /\ ~ In 46 e.
Proof.
  induction s as [|c s IH]; simpl; [contradiction|].
  intros H. destruct (in_dec N.eq_dec 46 s) as [Hin|Hno].
  - destruct (IH Hin) as (a & e & -> & He). exists (c :: a), e. now split.
  - destruct H as [-> | H]; [|contradiction]. exists [], s. now split.
Qed.

Lemma lowerAscii_form (c : N) :
  (lowerAscii c = 46 -> c = 46)
  /\ (lowerAscii c <? 65) || (90 <? lowerAscii c) = true.
Proof.
  unfold lowerAscii. destruct ((65 <=? c) && (c <=? 90)) eqn:Hcap.
  - apply andb_true_iff in Hcap as [H1 H2]. apply N.leb_le in H1, H2.
    split; [lia|]. apply orb_true_iff. right. apply N.ltb_lt. lia.
  - split; [auto|].
    apply andb_false_iff in Hcap as [H|H]; apply N.leb_gt in H;
      apply orb_true_iff; [left | right]; apply N.ltb_lt; lia.
Qed.

(** X7.  For every name made of ASCII characters, the extension [getExt]
    computes holds no dot and no capital letter; and for every name that
    ends in a dot it is empty. *)
Theorem getExt_form (filename : jsstring) :
  (forallb isAscii filename = true ->
     ~ In 46 (getExt filename)
     /\ Forall (fun c => (c <? 65) || (90 <? c) = true) (getExt filename))
  /\ getExt (filename ++ [46]) = [].
Proof.
  split.
  - intros Hascii. destruct (in_dec N.eq_dec 46 filename) as [Hin|Hno].
    + destruct (last_dot filename Hin) as (a & e & -> & He).
      rewrite getExt_after_last_dot by assumption.
      rewrite forallb_app in Hascii. apply andb_true_iff in Hascii as [_ Hascii].
      simpl in Hascii.
      rewrite toLowerCase_ascii by assumption. split.
      * intros Hd. apply in_map_iff in Hd as (c & Hc & Hd).
        apply lowerAscii_form in Hc. subst c. contradiction.
      * apply Forall_forall. intros d Hd. apply in_map_iff in Hd as (c & <- & _).
        apply lowerAscii_form.
    + rewrite getExt_no_dot by assumption. split; [intros [] | constructor].
  - apply (getExt_after_last_dot filename []). intros [].
Qed.

(** ** Further properties of the listeners *)

(** A submission with no file selected fails on the resume. *)
Lemma onSubmit_no_file (q : page) :
  files q = [] ->
  timers (after onSubmit q) = timers q
  /\ errResume (errors (after onSubmit q)) = Node msgResumeRequired false
  /\ formStatus (after onSubmit q) = Status msgFixErrors (lit "var(--danger)")
  /\ submitBtn (after onSubmit q) = Button false labelSubmit.
Proof.
  intros Hf. destruct (validateResume_none q Hf) as (Hres & Hslot & _).
  assert (Hbad : allOk q = false) by (unfold allOk; rewrite Hres; apply andb_false_r).
  rewrite onSubmit_after, Hbad.
  cbn [timers errors formStatus submitBtn withFormStatus withSubmitBtn].
  destruct (validated_frame (starting q)) as (_ & _ & _ & _ & _ & -> & _).
  destruct (validated_slots (starting q)) as (_ & _ & _ & _ & -> & _).
  pose proof (local_probe _ _ validateResume_local _ _ (probe_starting q))
    as (_ & E & _).
  cbn [getErr] in E. rewrite E, Hslot. repeat split; reflexivity.
Qed.

(** X8.  Once the file has been cleared with the clear button, or the form
    has been reset by a completed submission, the next submission fails:
    the resume slot shows the Required message, the status line shows the
    aggregate failure, the button is enabled again and nothing is
    scheduled. *)
Theorem no_file_no_submission (p : page) :
  (timers (after onSubmit (after onClearFile p)) = timers p
   /\ errResume (errors (after onSubmit (after onClearFile p)))
      = Node msgResumeRequired false
   /\ formStatus (after onSubmit (after onClearFile p))
      = Status msgFixErrors (lit "var(--danger)")
   /\ submitBtn (after onSubmit (after onClearFile p)) = Button false labelSubmit)
  /\ (timers (after onSubmit (after submitDone p)) = timers p
      /\ errResume (errors (after onSubmit (after submitDone p)))
         = Node msgResumeRequired false
      /\ formStatus (after onSubmit (after submitDone p))
         = Status msgFixErrors (lit "var(--danger)")
      /\ submitBtn (after onSubmit (after submitDone p))
         = Button false labelSubmit).
Proof.
  split.
  - assert (Hf : files (after onClearFile p) = []) by reflexivity.
    destruct (onSubmit_no_file _ Hf) as (-> & -> & -> & ->).
    repeat split; reflexivity.
  - assert (Hf : files (after submitDone p) = []) by reflexivity.
    destruct (onSubmit_no_file _ Hf) as (-> & -> & -> & ->).
    repeat split; reflexivity.
Qed.

(** X9.  The listeners of an event on one control write only that
    control's error slot: every other slot, the status line, the submit
    button and the pending timeouts are left as they were.  In particular
    the failure status of a rejected submission stays on display while
    the user corrects the fields. *)
Theorem event_writes_own_slot (e : event) (i j : errId) (p : page) :
  ownSlot e = Some i ->
  j <> i ->
  getErr j (errors (after (dispatch e) p)) = getErr j (errors p)
  /\ formStatus (after (dispatch e) p) = formStatus p
  /\ submitBtn (after (dispatch e) p) = submitBtn p
  /\ timers (after (dispatch e) p) = timers p.
Proof.
  intros He Hj.
  destruct e; try discriminate; injection He as <-;
    unfold dispatch, onFormInput, onClearFile, hidePreview, clearError;
    step_events.
  - rewrite (local_after _ _ validateName_local).
    destruct j; try congruence; repeat split; reflexivity.
  - rewrite (local_after _ _ validateEmail_local).
    destruct j; try congruence; repeat split; reflexivity.
  - rewrite (local_after _ _ validateCover_local).
    destruct j; try congruence; repeat split; reflexivity.
  - rewrite (local_after _ _ validatePortfolio_local).
    destruct j; try congruence; repeat split; reflexivity.
  - rewrite (local_after _ _ validateResume_local).
    destruct j; try congruence; repeat split; reflexivity.
  - destruct j; try congruence; repeat split; reflexivity.
Qed.

(** X10.  A submit attempt never alters what the user entered: the values
    of the text controls, their defaults, the selected files and the dirty
    flag are the same after the listener as before, whatever the outcome;
    the listener always prevents the default action; and the status line
    it leaves is the failure message, or empty while a completion is
    pending. *)
Theorem submit_keeps_input (p : page) :
  values (after onSubmit p) = values p
  /\ defaults (after onSubmit p) = defaults p
  /\ files (after onSubmit p) = files p
  /\ isDirty (after onSubmit p) = isDirty p
  /\ result onSubmit p = true
  /\ formStatus (after onSubmit p)
     = (if result validateName p && result validateEmail p
           && result validateCover p && result validatePortfolio p
           && result validateResume p
        then Status [] (color (formStatus p))
        else Status msgFixErrors (lit "var(--danger)")).
Proof.
  rewrite onSubmit_result, onSubmit_after. fold (allOk p).
  destruct (validated_frame (starting p)) as (Hv & Hd & Hf & _ & Hs & _ & Hy).
  destruct (allOk p);
    cbn [values defaults files isDirty formStatus withTimers withFormStatus
         withSubmitBtn];
    rewrite ?Hv, ?Hd, ?Hf, ?Hy, ?Hs; repeat split; reflexivity.
Qed.

Lemma dispatch_defaults (e : event) (q : page) :
  defaults (after (dispatch e) q) = defaults q.
Proof.
  destruct e; unfold dispatch, onFormInput; step_events.
  - rewrite (local_after _ _ validateName_local). reflexivity.
  - rewrite (local_after _ _ validateEmail_local). reflexivity.
  - rewrite (local_after _ _ validateCover_local). reflexivity.
  - rewrite (local_after _ _ validatePortfolio_local). reflexivity.
  - rewrite (local_after _ _ validateResume_local). reflexivity.
  - reflexivity.
  - rewrite onSubmit_after.
    destruct (validated_frame (starting q)) as (_ & Hd & _).
    destruct (allOk q); cbn [defaults withTimers withFormStatus withSubmitBtn];
      rewrite Hd; reflexivity.
  - unfold result, gets. cbn [fst].
    destruct (timers q) as [|[ms []] rest]; reflexivity.
  - unfold onBeforeUnload, after, bind, gets, ret. cbn [fst snd].
    destruct (isDirty q); reflexivity.
Qed.

Lemma run_defaults (es : list event) (q : page) :
  defaults (run es q) = defaults q.
Proof.
  revert q. induction es as [|e es IH]; intros q; simpl; [reflexivity|].
  now rewrite IH, dispatch_defaults.
Qed.

(** X11.  End to end: when all five validators succeed on a page with no
    pending timeout, then whatever is typed, picked or cleared while the
    submission is pending, the timeout ends with the button enabled and
    labelled [Submit application], the success message [Application
    submitted successfully] with its check mark (code unit 9989) on the
    status line, the text controls at their default values, no file selected,
    the preview hidden and no timeout left; what was entered meanwhile is
    discarded, and the error slots are left as they were when it fired. *)
Theorem submission_completes (p : page) (es : list event) :
  result validateName p && result validateEmail p && result validateCover p
    && result validatePortfolio p && result validateResume p = true ->
  timers p = [] ->
  forallb whileWaiting es = true ->
  let waiting := run es (after onSubmit p) in
  let q := after (dispatch TimerFires) waiting in
  submitBtn q = Button false (lit "Submit application")
  /\ formStatus q
     = Status (lit "Application submitted successfully " ++ [9989])
              (lit "var(--success)")
  /\ values q = defaults p
  /\ files q = []
  /\ hidden (filePreview q) = true
  /\ timers q = []
  /\ errors q = errors waiting.
Proof.
  intros Hok Ht Hes waiting q. fold (allOk p) in Hok.
  assert (Hw : timers waiting = [(800, SubmitDone)]).
  { subst waiting. destruct (run_waiting es (after onSubmit p) Hes) as [_ ->].
    rewrite onSubmit_after, Hok. cbn [timers withTimers].
    destruct (validated_frame (starting p)) as (_ & _ & _ & _ & _ & -> & _).
    unfold starting. cbn [timers withSubmitBtn withFormStatus].
    now rewrite Ht. }
  assert (Hd : defaults waiting = defaults p).
  { subst waiting. rewrite run_defaults, onSubmit_after, Hok.
    cbn [defaults withTimers].
    now destruct (validated_frame (starting p)) as (_ & -> & _). }
  subst q. clearbody waiting.
  unfold dispatch. step_events. unfold result, gets. cbn [fst].
  rewrite Hw. step_events. unfold runCallback. rewrite submitDone_after.
  cbn [submitBtn formStatus values files filePreview hidden timers errors
       withTimers defaults].
  unfold after. cbn [snd]. rewrite Hd. repeat split; reflexivity.
Qed.

(** X12.  Sizes just under one megabyte are shown in kilobytes and round
    up to a four-digit figure: every size from 1,048,525 to 1,048,575
    bytes is printed as [1024.0 KB]. *)
Theorem prettyBytes_rollover (bytes : N) :
  1048525 <= bytes -> bytes < 1048576 -> prettyBytes bytes = lit "1024.0 KB".
Proof.
  intros Hlo Hhi. unfold prettyBytes.
  assert (E1 : (bytes <? 1024) = false) by (apply N.ltb_ge; lia).
  assert (E2 : (bytes <? 1024 * 1024) = true) by (apply N.ltb_lt; lia).
  rewrite E1, E2. unfold toFixed1.
  assert (En : (20 * bytes + 1024) / (2 * 1024) = 10240).
  { symmetry. apply (N.div_unique _ _ _ (20 * bytes + 1024 - 10240 * 2048)); lia. }
  rewrite En. reflexivity.
Qed.

(** X13.  A validator writes nothing but its own error slot and, for the
    resume, the file preview: the values, the defaults, the selected
    files, the submit button, the status line, the pending timeouts and
    the dirty flag are untouched, and so is every other slot. *)
Theorem validator_frame (i j : errId) (p : page) :
  values (after (validator i) p) = values p
  /\ defaults (after (validator i) p) = defaults p
  /\ files (after (validator i) p) = files p
  /\ submitBtn (after (validator i) p) = submitBtn p
  /\ formStatus (after (validator i) p) = formStatus p
  /\ timers (after (validator i) p) = timers p
  /\ isDirty (after (validator i) p) = isDirty p
  /\ (j <> i -> getErr j (errors (after (validator i) p)) = getErr j (errors p))
  /\ (i <> ErrResume -> filePreview (after (validator i) p) = filePreview p).
Proof.
  destruct (local_frame _ _ (validator_local i) p)
    as (H1 & H2 & H3 & H4 & H5 & H6 & H7).
  repeat (split; [assumption|]). split.
  - apply (local_other_slot _ _ (validator_local i)).
  - intros Hi. destruct i; simpl;
      [ apply validateName_preview | apply validateEmail_preview
      | apply validateCover_preview | congruence
      | apply validatePortfolio_preview ].
Qed.


(** Two pages with the same fields are the same page. *)
Lemma page_ext (p q : page) :
  values p = values q -> defaults p = defaults q -> files p = files q ->
  errors p = errors q -> filePreview p = filePreview q ->
  submitBtn p = submitBtn q -> formStatus p = formStatus q ->
  timers p = timers q -> isDirty p = isDirty q -> p = q.
Proof.
  destruct p, q. cbn [values defaults files errors filePreview submitBtn
                      formStatus timers isDirty].
  intros; subst; reflexivity.
Qed.

Lemma errs_ext (e e' : errs) :
  (forall i, getErr i e = getErr i e') -> e = e'.
Proof.
  intros H. destruct e, e'.
  pose proof (H ErrName) as H1. pose proof (H ErrEmail) as H2.
  pose proof (H ErrCover) as H3. pose proof (H ErrResume) as H4.
  pose proof (H ErrPortfolio) as H5. cbn [getErr errName errEmail errCover
    errResume errPortfolio] in *. subst. reflexivity.
Qed.

(** What each validator reads. *)
Lemma validator_reads (i : errId) (p q : page) :
  values p = values q -> files p = files q ->
  result (validator i) p = result (validator i) q
  /\ getErr i (errors (after (validator i) p))
     = getErr i (errors (after (validator i) q)).
Proof.
  intros Hv Hf. destruct i; open_validators; rewrite ?Hv, ?Hf;
    split_cases; split; reflexivity.
Qed.

Lemma validateResume_settled (p q : page) :
  files q = files p ->
  filePreview q = filePreview (after validateResume p) ->
  filePreview (after validateResume q) = filePreview q.
Proof.
  intros Hf Hp.
  assert (G : filePreview (after validateResume q)
              = filePreview (after validateResume p)).
  { revert Hp. open_validators. rewrite Hf.
    split_cases; intros Hp; rewrite ?Hp; reflexivity. }
  rewrite G. symmetry. exact Hp.
Qed.

(** The slots and the preview after the five validators, from any page
    that holds the same values and files. *)
Lemma validated_reads (s p : page) :
  values s = values p -> files s = files p ->
  forall i, getErr i (errors (validated s))
            = getErr i (errors (after (validator i) p)).
Proof.
  intros Hv Hf i.
  destruct (validated_slots s) as (S1 & S2 & S3 & S4 & S5 & _).
  destruct (validator_reads i s p Hv Hf) as (_ & <-).
  destruct i; cbn [getErr validator]; assumption.
Qed.

(** X14.  A rejected submission can be repeated without effect:
    submitting again without changing anything leaves the page exactly as
    the first rejected attempt left it. *)
Theorem rejected_submit_repeats (p : page) :
  result validateName p && result validateEmail p && result validateCover p
    && result validatePortfolio p && result validateResume p = false ->
  after onSubmit (after onSubmit p) = after onSubmit p.
Proof.
  intros Hbad. fold (allOk p) in Hbad.
  set (q := after onSubmit p).
  assert (Eq : q = withFormStatus (Status msgFixErrors (lit "var(--danger)"))
                     (withSubmitBtn (Button false labelSubmit)
                                    (validated (starting p))))
    by (unfold q; now rewrite onSubmit_after, Hbad).
  destruct (validated_frame (starting p)) as (Hv & Hd & Hf & _ & _ & Ht & Hy).
  assert (Qv : values q = values p) by (rewrite Eq; exact Hv).
  assert (Qf : files q = files p) by (rewrite Eq; exact Hf).
  assert (Qe : forall i, getErr i (errors q)
                         = getErr i (errors (after (validator i) p))).
  { intros i. rewrite Eq. cbn [errors withFormStatus withSubmitBtn].
    now apply validated_reads. }
  assert (Qp : filePreview q = filePreview (after validateResume p)).
  { rewrite Eq. cbn [filePreview withFormStatus withSubmitBtn].
    destruct (validated_slots (starting p)) as (_ & _ & _ & _ & _ & ->).
    now apply (local_probe _ _ validateResume_local _ _ (probe_starting p)). }
  assert (Qbad : allOk q = false).
  { rewrite <- Hbad. unfold allOk.
    destruct (validator_reads ErrName q p Qv Qf) as (R1 & _).
    destruct (validator_reads ErrEmail q p Qv Qf) as (R2 & _).
    destruct (validator_reads ErrCover q p Qv Qf) as (R3 & _).
    destruct (validator_reads ErrPortfolio q p Qv Qf) as (R4 & _).
    destruct (validator_reads ErrResume q p Qv Qf) as (R5 & _).
    cbn [validator] in R1, R2, R3, R4, R5. now rewrite R1, R2, R3, R4, R5. }
  rewrite onSubmit_after, Qbad.
  destruct (validated_frame (starting q)) as (Hv' & Hd' & Hf' & _ & _ & Ht' & Hy').
  apply page_ext;
    cbn [values defaults files errors filePreview submitBtn formStatus timers
         isDirty withFormStatus withSubmitBtn].
  - exact Hv'.
  - exact Hd'.
  - exact Hf'.
  - apply errs_ext. intros i.
    rewrite (validated_reads (starting q) p Qv Qf i). symmetry. apply Qe.
  - destruct (validated_slots (starting q)) as (_ & _ & _ & _ & _ & ->).
    pose proof (local_probe _ _ validateResume_local _ _ (probe_starting q))
      as (_ & _ & ->).
    now apply (validateResume_settled p q).
  - rewrite Eq. reflexivity.
  - rewrite Eq. reflexivity.
  - exact Ht'.
  - exact Hy'.
Qed.


(** When each validator succeeds. *)
Lemma validateName_true (p : page) :
  result validateName p = true
  <-> (2 <= List.length (trim (fullName (values p))))%nat.
Proof.
  unfold validateName. run_script.
  destruct (trim (fullName (values p))) as [|c [|d w]]; simpl;
    split; intros H; try discriminate; try lia; reflexivity.
Qed.

Lemma validateEmail_true (p : page) :
  result validateEmail p = true <-> emailShape (trim (email (values p))).
Proof.
  split; [apply validateEmail_accepts|].
  intros Hs. unfold validateEmail. run_script.
  assert (Hne : falsy (trim (email (values p))) = false).
  { destruct Hs as (a & b & c & -> & Ha & _). destruct a; [congruence|reflexivity]. }
  apply re_shape in Hs. now rewrite Hne, Hs.
Qed.

Lemma validateCover_true (p : page) :
  result validateCover p = true
  <-> trim (cover (values p)) = []
      \/ (20 <= List.length (trim (cover (values p))))%nat.
Proof.
  unfold validateCover. run_script.
  destruct (trim (cover (values p))) as [|c w] eqn:E; [simpl; intuition|].
  simpl falsy. cbv iota.
  destruct (Nat.ltb_spec (List.length (c :: w)) 20) as [H|H]; simpl fst;
    split; intros G; try discriminate; try reflexivity.
  - destruct G as [G|G]; [discriminate | lia].
  - now right.
Qed.

Lemma validatePortfolio_true (p : page) :
  result validatePortfolio p = true
  <-> trim (portfolio (values p)) = []
      \/ exists s, newURL (trim (portfolio (values p))) = Some s
                   /\ (s = lit "http:" \/ s = lit "https:").
Proof.
  unfold validatePortfolio. run_script.
  destruct (trim (portfolio (values p))) as [|c w] eqn:E;
    [simpl; split; [now left | reflexivity]|].
  simpl falsy. cbv iota.
  destruct (newURL (c :: w)) as [s|] eqn:Hu.
  - destruct (includes [lit "http:"; lit "https:"] s) eqn:Hi; simpl fst.
    + split; [|reflexivity]. intros _. right. exists s. split; [reflexivity|].
      apply includes_In in Hi. destruct Hi as [Hi|[Hi|[]]]; auto.
    + split; [discriminate|]. intros [G | (s' & Hs' & G)]; [discriminate|].
      injection Hs' as <-.
      assert (Hin : includes [lit "http:"; lit "https:"] s = true).
      { apply includes_In. destruct G as [-> | ->]; [now left | right; now left]. }
      congruence.
  - simpl fst. split; [discriminate|].
    intros [G | (s' & Hs' & _)]; discriminate.
Qed.

Lemma validateResume_true (p : page) :
  result validateResume p = true
  <-> exists f rest,
        files p = f :: rest /\ size f <= MAX_FILE_BYTES
        /\ (In (type f) ALLOWED_MIME \/ In (getExt (name f)) ALLOWED_EXT).
Proof.
  destruct (files p) as [|f rest] eqn:Hf.
  - destruct (validateResume_none p Hf) as (-> & _).
    split; [discriminate | intros (f & rest & H & _); discriminate].
  - destruct (N.lt_ge_cases MAX_FILE_BYTES (size f)) as [Hsz|Hsz].
    + destruct (validateResume_large p f rest Hf Hsz) as (-> & _).
      split; [discriminate|]. intros (f' & rest' & H & Hle & _).
      injection H as <- _. lia.
    + destruct (validateResume_within_limit p f rest Hf Hsz) as (-> & _).
      rewrite allowed_iff. split.
      * intros H. exists f, rest. auto.
      * intros (f' & rest' & H & _ & Hty). now injection H as <- _.
Qed.

(** X15.  A submission is accepted, that is, schedules its completion,
    exactly when the trimmed name has at least two characters, the
    trimmed email has the shape [a@b.c], the cover letter is blank or at
    least 20 characters long once trimmed, the portfolio is blank or
    parses as an http or https URL, and the first selected file is within
    the size limit and of an allowed type or extension.  Name, email and
    resume are required; cover letter and portfolio are optional. *)
Theorem accepted_iff (p : page) :
  timers (after onSubmit p) = timers p ++ [(800, SubmitDone)]
  <-> (2 <= List.length (trim (fullName (values p))))%nat
      /\ emailShape (trim (email (values p)))
      /\ (trim (cover (values p)) = []
          \/ (20 <= List.length (trim (cover (values p))))%nat)
      /\ (trim (portfolio (values p)) = []
          \/ exists s, newURL (trim (portfolio (values p))) = Some s
                       /\ (s = lit "http:" \/ s = lit "https:"))
      /\ (exists f rest,
            files p = f :: rest /\ size f <= MAX_FILE_BYTES
            /\ (In (type f) ALLOWED_MIME \/ In (getExt (name f)) ALLOWED_EXT)).
Proof.
  rewrite <- validateName_true, <- validateEmail_true, <- validateCover_true,
          <- validatePortfolio_true, <- validateResume_true.
  rewrite onSubmit_after.
  destruct (validated_frame (starting p)) as (_ & _ & _ & _ & _ & Ht & _).
  unfold allOk.
  destruct (result validateName p), (result validateEmail p),
    (result validateCover p), (result validatePortfolio p),
    (result validateResume p);
    cbn [andb timers withTimers withFormStatus withSubmitBtn]; rewrite Ht;
    unfold starting; cbn [timers withSubmitBtn withFormStatus];
    (split;
     [ intros H; try (repeat split; reflexivity);
       exfalso; apply (f_equal (@List.length _)) in H;
       rewrite length_app in H; simpl in H; lia
     | intros (H1 & H2 & H3 & H4 & H5); try reflexivity; discriminate ]).
Qed.

End Script.

(** ** Runs on the sample pages *)

(** C1 on the blank page: nothing is filled in, the submission fails at
    once and nothing is scheduled. *)
Lemma onSubmit_invalid_witness :
  submitBtn (after (onSubmit plainLower schemeURL) blankPage)
  = Button false (lit "Submit application")
  /\ errName (errors (after (onSubmit plainLower schemeURL) blankPage))
     = Node msgNameRequired false
  /\ errResume (errors (after (onSubmit plainLower schemeURL) blankPage))
     = Node msgResumeRequired false
  /\ timers (after (onSubmit plainLower schemeURL) blankPage) = [].
Proof.
  assert (H : result validateName blankPage && result validateEmail blankPage
              && result validateCover blankPage
              && result (validatePortfolio schemeURL) blankPage
              && result (validateResume plainLower) blankPage = false) by reflexivity.
  destruct (onSubmit_invalid plainLower schemeURL blankPage H)
    as (H1 & _ & _ & _ & H5 & _ & Hb & _ & Ht & _).
  split; [exact Hb|]. split; [exact H1|]. split; [exact H5 | exact Ht].
Defined.

(** C2 on the sample file [resume.PDF] with no content type, and on a
    file accepted by its content type alone. *)
Lemma validateResume_type_witness :
  result (validateResume plainLower) filledPage = true
  /\ result (validateResume plainLower)
       (withFiles [File (lit "cv") 1000 (lit "application/msword")] blankPage)
     = true.
Proof.
  split.
  - assert (Hf : files filledPage = File (lit "resume.PDF") 2097152 [] :: [])
      by reflexivity.
    assert (Hsz : size (File (lit "resume.PDF") 2097152 []) <= MAX_FILE_BYTES)
      by (vm_compute; discriminate).
    destruct (validateResume_type plainLower filledPage _ _ Hf Hsz)
      as (_ & _ & _ & _ & _ & _ & H & _).
    apply H; reflexivity.
  - assert (Hf : files (withFiles [File (lit "cv") 1000 (lit "application/msword")]
                                  blankPage)
                 = File (lit "cv") 1000 (lit "application/msword") :: [])
      by reflexivity.
    assert (Hsz : size (File (lit "cv") 1000 (lit "application/msword"))
                  <= MAX_FILE_BYTES)
      by (vm_compute; discriminate).
    destruct (validateResume_type plainLower _ _ _ Hf Hsz) as (H & _).
    apply H. left. right. left. reflexivity.
Defined.

(** C3 at the limit and one byte above it. *)
Lemma validateResume_size_witness :
  result (validateResume plainLower) filledPage = true
  /\ result (validateResume plainLower)
       (withFiles [File (lit "cv.docx") 2097153 []] blankPage) = false.
Proof.
  split.
  - assert (Hf : files filledPage = File (lit "resume.PDF") 2097152 [] :: [])
      by reflexivity.
    assert (Hty : In (type (File (lit "resume.PDF") 2097152 [])) ALLOWED_MIME
                  \/ In (getExt plainLower (name (File (lit "resume.PDF") 2097152 [])))
                        ALLOWED_EXT)
      by (right; left; reflexivity).
    destruct (validateResume_size plainLower filledPage _ _ Hf Hty) as (_ & H & _).
    apply H. reflexivity.
  - assert (Hf : files (withFiles [File (lit "cv.docx") 2097153 []] blankPage)
                 = File (lit "cv.docx") 2097153 [] :: [])
      by reflexivity.
    assert (Hty : In (type (File (lit "cv.docx") 2097153 [])) ALLOWED_MIME
                  \/ In (getExt plainLower (name (File (lit "cv.docx") 2097153 [])))
                        ALLOWED_EXT)
      by (right; right; right; left; reflexivity).
    destruct (validateResume_size plainLower _ _ _ Hf Hty) as (_ & _ & _ & H).
    apply H. vm_compute. discriminate.
Defined.

(** C4 as stated fails on values with white space around them: a value of
    exactly 20 characters, one letter and 19 spaces, is rejected, and a
    value of one space is accepted. *)
Lemma validateCover_raw_length_counterexample :
  List.length (lit "a                   ") = 20%nat
  /\ result validateCover (setCover (lit "a                   ") blankPage) = false
  /\ List.length (lit " ") = 1%nat
  /\ result validateCover (setCover (lit " ") blankPage) = true.
Proof. repeat split; reflexivity. Qed.

(** C4 as amended, on the padded value and on a value of 20 characters
    with spaces inside but none at either end. *)
Lemma validateCover_trimmed_witness :
  result validateCover (setCover (lit "a                   ") blankPage) = false
  /\ result validateCover (setCover (lit "I like this job much") blankPage) = true.
Proof.
  split.
  - destruct (validateCover_trimmed (setCover (lit "a                   ") blankPage))
      as (_ & _ & H & _).
    apply H. vm_compute. lia.
  - destruct (validateCover_trimmed
                (setCover (lit "I like this job much") blankPage))
      as (_ & _ & _ & _ & _ & H & _).
    apply H; [split; reflexivity | reflexivity].
Defined.

(** C5 on a well-formed address, on one without [@] and on one without a
    dot after the [@]. *)
Lemma validateEmail_spec_witness :
  result validateEmail (setEmail (lit "ada@example.com") blankPage) = true
  /\ result validateEmail (setEmail (lit "ada.example.com") blankPage) = false
  /\ result validateEmail (setEmail (lit "ada@example") blankPage) = false
  /\ result validateEmail blankPage = false.
Proof.
  split; [|split; [|split]].
  - destruct (validateEmail_spec (setEmail (lit "ada@example.com") blankPage))
      as (_ & _ & _ & H & _).
    apply H. exists (lit "ada"), (lit "example"), (lit "com").
    repeat split; try discriminate; repeat constructor.
  - destruct (validateEmail_spec (setEmail (lit "ada.example.com") blankPage))
      as (_ & _ & _ & _ & H & _).
    apply H. vm_compute. intuition discriminate.
  - destruct (validateEmail_spec (setEmail (lit "ada@example") blankPage))
      as (_ & _ & _ & _ & _ & H).
    apply (H (lit "ada") (lit "example")); [reflexivity|].
    vm_compute. intuition discriminate.
  - destruct (validateEmail_spec blankPage) as (H & _).
    apply H. reflexivity.
Defined.

(** C6 on a two-letter name, a one-letter name and a blank one. *)
Lemma validateName_spec_witness :
  result validateName (setFullName (lit " Al ") blankPage) = true
  /\ result validateName (setFullName (lit " A ") blankPage) = false
  /\ result validateName (setFullName (lit "   ") blankPage) = false.
Proof.
  split; [|split].
  - destruct (validateName_spec (setFullName (lit " Al ") blankPage)) as (_ & _ & H).
    apply H. vm_compute. lia.
  - destruct (validateName_spec (setFullName (lit " A ") blankPage)) as (_ & H & _).
    apply H. reflexivity.
  - destruct (validateName_spec (setFullName (lit "   ") blankPage)) as (H & _).
    apply H. reflexivity.
Defined.

(** C7 with the stand-in parser on the three values of the claim. *)
Lemma validatePortfolio_spec_witness :
  result (validatePortfolio schemeURL) (setPortfolio (lit "not a url") blankPage)
  = false
  /\ errPortfolio (errors (after (validatePortfolio schemeURL)
                                 (setPortfolio (lit "ftp://x.com") blankPage)))
     = Node msgPortfolioScheme false
  /\ result (validatePortfolio schemeURL)
            (setPortfolio (lit "https://example.com") blankPage) = true
  /\ result (validatePortfolio schemeURL) blankPage = true.
Proof.
  split; [|split; [|split]].
  - destruct (validatePortfolio_spec schemeURL
                (setPortfolio (lit "not a url") blankPage))
      as (_ & _ & _ & _ & H & _).
    apply H; reflexivity.
  - destruct (validatePortfolio_spec schemeURL
                (setPortfolio (lit "ftp://x.com") blankPage))
      as (_ & _ & _ & _ & _ & H & _).
    apply H; reflexivity.
  - destruct (validatePortfolio_spec schemeURL
                (setPortfolio (lit "https://example.com") blankPage))
      as (_ & _ & _ & _ & _ & _ & H).
    apply H; reflexivity.
  - destruct (validatePortfolio_spec schemeURL blankPage) as (H & _).
    apply H. reflexivity.
Defined.

(** C8 on the filled page: one timeout of 800 is pending, the button
    waits, and the completion resets the form. *)
Lemma onSubmit_valid_witness :
  timers (after (onSubmit plainLower schemeURL) filledPage) = [(800, SubmitDone)]
  /\ submitBtn (after (onSubmit plainLower schemeURL) filledPage)
     = Button true (lit "Checking...")
  /\ submitBtn (after (dispatch plainLower schemeURL TimerFires)
                      (after (onSubmit plainLower schemeURL) filledPage))
     = Button false (lit "Submit application").
Proof.
  assert (H : result validateName filledPage && result validateEmail filledPage
              && result validateCover filledPage
              && result (validatePortfolio schemeURL) filledPage
              && result (validateResume plainLower) filledPage = true) by reflexivity.
  destruct (onSubmit_valid plainLower schemeURL filledPage H) as (Ht & Hb & _ & Hdone).
  split; [exact Ht|]. split; [exact Hb|].
  destruct (Hdone (after (onSubmit plainLower schemeURL) filledPage) [] Ht) as (Hq & _).
  exact Hq.
Defined.

(** C10 with no file, and with a file both too large and of a disallowed
    type, which reports TooLarge. *)
Lemma validateResume_order_witness :
  errResume (errors (after (validateResume plainLower) blankPage)) = Node msgResumeRequired false
  /\ errResume (errors (after (validateResume plainLower)
          (withFiles [File (lit "notes.txt") 3000000 (lit "text/plain")]
                     blankPage)))
     = Node msgResumeTooLarge false
  /\ hidden (filePreview (after (validateResume plainLower) blankPage)) = true.
Proof.
  split; [|split].
  - destruct (validateResume_order plainLower blankPage) as (H & _).
    apply H. reflexivity.
  - destruct (validateResume_order plainLower
                (withFiles [File (lit "notes.txt") 3000000 (lit "text/plain")]
                           blankPage)) as (_ & H & _).
    apply (H (File (lit "notes.txt") 3000000 (lit "text/plain")) []);
      reflexivity.
  - destruct (validateResume_order plainLower blankPage) as (_ & _ & H).
    apply H. reflexivity.
Defined.

(** ** Runs of the further properties *)

(** X1 on the filled page: the email slot is empty after validation. *)
Lemma slot_shows_verdict_witness :
  textContent (getErr ErrEmail
                 (errors (after (validator plainLower schemeURL ErrEmail) filledPage))) = [].
Proof.
  apply (proj2 (slot_shows_verdict plainLower schemeURL ErrEmail filledPage)). reflexivity.
Defined.

(** X4 on a padded two-letter name. *)
Lemma padding_ignored_witness :
  result validateName (setFullName (lit "  " ++ lit "Al" ++ lit " ") blankPage)
  = result validateName (setFullName (lit "Al") blankPage).
Proof.
  assert (H : Forall (fun c => isWhiteSpace c = true) (lit "  "))
    by (repeat constructor).
  assert (H' : Forall (fun c => isWhiteSpace c = true) (lit " "))
    by (repeat constructor).
  destruct (padding_ignored schemeURL (lit "  ") (lit "Al") (lit " ") blankPage H H')
    as ((E & _) & _).
  exact E.
Defined.

(** X5 on the address of the filled page. *)
Lemma email_accepted_form_witness :
  count_occ N.eq_dec (trim (email (values filledPage))) 64 = 1%nat.
Proof.
  assert (H : result validateEmail filledPage = true) by reflexivity.
  destruct (email_accepted_form filledPage H) as (_ & E & _). exact E.
Defined.

(** X6 on the file of the filled page. *)
Lemma resume_preview_witness :
  filePreview (after (validateResume plainLower) filledPage)
  = Node (lit "Selected: resume.PDF (2.0 MB)") false.
Proof.
  destruct (resume_preview plainLower filledPage) as (_ & H & _).
  apply (H (File (lit "resume.PDF") 2097152 []) []); reflexivity.
Defined.

(** X9 on typing a name into the blank page. *)
Lemma event_writes_own_slot_witness :
  getErr ErrEmail (errors (after (dispatch plainLower schemeURL (InputFullName (lit "A")))
                                 blankPage))
  = getErr ErrEmail (errors blankPage).
Proof.
  assert (H : ownSlot (InputFullName (lit "A")) = Some ErrName) by reflexivity.
  assert (H' : ErrEmail <> ErrName) by discriminate.
  destruct (event_writes_own_slot plainLower schemeURL _ _ _ blankPage H H') as (E & _).
  exact E.
Defined.

(** X11 on the filled page, with the name emptied and the file cleared
    while the submission is pending. *)
Lemma submission_completes_witness :
  formStatus (after (dispatch plainLower schemeURL TimerFires)
                (run plainLower schemeURL [InputFullName []; ClickClearFile]
                     (after (onSubmit plainLower schemeURL) filledPage)))
  = Status msgSubmitted (lit "var(--success)").
Proof.
  assert (H : result validateName filledPage && result validateEmail filledPage
              && result validateCover filledPage
              && result (validatePortfolio schemeURL) filledPage
              && result (validateResume plainLower) filledPage = true) by reflexivity.
  assert (Ht : timers filledPage = []) by reflexivity.
  assert (He : forallb whileWaiting [InputFullName []; ClickClearFile] = true)
    by reflexivity.
  destruct (submission_completes plainLower schemeURL filledPage _ H Ht He) as (_ & E & _).
  exact E.
Defined.

(** X12 at the largest size below one megabyte. *)
Lemma prettyBytes_rollover_witness : prettyBytes 1048575 = lit "1024.0 KB".
Proof. apply prettyBytes_rollover; lia. Defined.

(** X13 on the blank page: validating the name leaves the email slot. *)
Lemma validator_frame_witness :
  getErr ErrEmail (errors (after (validator plainLower schemeURL ErrName) blankPage))
  = getErr ErrEmail (errors blankPage).
Proof.
  destruct (validator_frame plainLower schemeURL ErrName ErrEmail blankPage)
    as (_ & _ & _ & _ & _ & _ & _ & H & _).
  apply H. discriminate.
Defined.

(** X14 on the blank page. *)
Lemma rejected_submit_repeats_witness :
  after (onSubmit plainLower schemeURL) (after (onSubmit plainLower schemeURL) blankPage)
  = after (onSubmit plainLower schemeURL) blankPage.
Proof.
  apply rejected_submit_repeats. reflexivity.
Defined.

(** X15 on the filled page. *)
Lemma accepted_iff_witness :
  timers (after (onSubmit plainLower schemeURL) filledPage) = [(800, SubmitDone)].
Proof.
  apply (proj2 (accepted_iff plainLower schemeURL filledPage)).
  split; [vm_compute; lia|]. split.
  - exists (lit "ada"), (lit "example"), (lit "com").
    repeat split; try discriminate; repeat constructor.
  - split; [left; reflexivity|]. split.
    + right. exists (lit "https:"). split; [reflexivity | right; reflexivity].
    + exists (File (lit "resume.PDF") 2097152 []), [].
      split; [reflexivity|]. split; [vm_compute; discriminate|].
      right. left. reflexivity.
Defined.

(** X7 on a name with capitals and several dots. *)
Lemma getExt_form_witness :
  ~ In 46 (getExt plainLower (lit "Report.Final.DOCX")).
Proof.
  destruct (getExt_form plainLower (lit "Report.Final.DOCX")) as (H & _).
  apply H. reflexivity.
Defined.
